(** * QSD Pharmalytics: the analytics aggregation engine, the sales CRUD
    endpoints and the report composer, embedded in Rocq.

  Source files covered:
    - [src/app/core/analytics.py]   (class [AnalyticsService])
    - [src/app/api/v1/sales.py]     ([create_sale], [get_sales], [update_sale])
    - [src/app/core/reports.py]     ([ReportsService._generate_insights])
    - [src/v2.0/app/schemas/sales.py] ([SaleCreate], [SaleUpdate])
    - [src/v2.0/app/utils/data_processing.py] ([MathUtils], [ValidationProcessor])

  Conventions of the embedding.
    - The sales table is a [list Sale]; a query is a function of that list.
    - Python [int] is [Z].  Python [float] is modelled by the exact
      rationals [Q]: every statement below is about the arithmetic the
      code writes down, not about binary64 rounding of it.
    - [None] is [option]'s [None]; [x or 0] is [or0].
    - A Python [dict] used as a record of named results is a Rocq record;
      a [dict] that is read with [.get(key, default)] is a [gmap string Q].
    - An exception raised by the code is the [Err] branch of [result]. *)

From Stdlib Require Import ZArith QArith Qround Qabs Lqa Lia List String Ascii Bool.
From Stdlib Require Import Sorting.Sorted.
From stdpp Require Import base gmap strings.
Import ListNotations.

Local Open Scope Z_scope.

(* ================================================================== *)
(** ** Python values                                                   *)
(* ================================================================== *)

Module Py.

(** Exceptions the modelled code can raise. *)
Inductive exn : Type :=
| ZeroDivisionError
| TypeError
| ValidationError
| HTTP404
| IntegrityError
| StorageError.

Inductive result (A : Type) : Type :=
| Ok (a : A)
| Err (e : exn).
Arguments Ok {A} a.
Arguments Err {A} e.

Definition bind {A B} (r : result A) (k : A -> result B) : result B :=
  match r with
  | Ok a => k a
  | Err e => Err e
  end.

Definition Qltb (x y : Q) : bool := negb (Qle_bool y x).

(** [x or 0] for a nullable number, and the truth value of a number. *)
Definition or0 (x : option Q) : Q := default 0%Q x.
Definition truthyQ (x : Q) : bool := negb (Qeq_bool x 0).

(** The truth value of an optional string: [None] and [""] are falsy. *)
Definition truthy_str (s : option string) : bool :=
  match s with
  | Some (String _ _) => true
  | _ => false
  end.

(** Python's builtin [sum]: a left fold that starts from [0]. *)
Definition sum (xs : list Q) : Q := fold_left Qplus xs 0%Q.

(** The same [sum] over integers. *)
Definition sum_int (xs : list Z) : Z := fold_left Z.add xs 0.

Definition maxQ (x y : Q) : Q := if Qltb x y then y else x.

(** [round(x)] to an integer, ties to even. *)
Definition round_half_even (x : Q) : Z :=
  let f := Qfloor x in
  let r := (x - inject_Z f)%Q in
  if Qltb r (1 # 2) then f
  else if Qltb (1 # 2) r then f + 1
  else if Z.even f then f else f + 1.

(** [round(x, 2)]. *)
Definition round2 (x : Q) : Q :=
  (inject_Z (round_half_even (x * 100)) / 100)%Q.

End Py.
Export Py.

(* ================================================================== *)
(** ** Calendar: [datetime.date], [datetime.datetime] and the SQL date
     functions the queries use                                       *)
(* ================================================================== *)

Module Calendar.

Record date : Type := mkDate { year : Z; month : Z; day : Z }.

(** A timestamp: a calendar date and the seconds elapsed since midnight. *)
Record datetime : Type := mkDateTime { dt_date : date; dt_secs : Z }.

Definition date_eqb (a b : date) : bool :=
  (year a =? year b) && (month a =? month b) && (day a =? day b).

(** Days since 1970-01-01 of a proleptic Gregorian date. *)
Definition days_from_civil (d : date) : Z :=
  let y := if month d <=? 2 then year d - 1 else year d in
  let era := y / 400 in
  let yoe := y - era * 400 in
  let mp := if month d >? 2 then month d - 3 else month d + 9 in
  let doy := (153 * mp + 2) / 5 + day d - 1 in
  let doe := yoe * 365 + yoe / 4 - yoe / 100 + doy in
  era * 146097 + doe - 719468.

Definition civil_from_days (z0 : Z) : date :=
  let z := z0 + 719468 in
  let era := z / 146097 in
  let doe := z - era * 146097 in
  let yoe := (doe - doe / 1460 + doe / 36524 - doe / 146096) / 365 in
  let y := yoe + era * 400 in
  let doy := doe - (365 * yoe + yoe / 4 - yoe / 100) in
  let mp := (5 * doy + 2) / 153 in
  let d := doy - (153 * mp + 2) / 5 + 1 in
  let m := if mp <? 10 then mp + 3 else mp - 9 in
  mkDate (if m <=? 2 then y + 1 else y) m d.

(** [d + timedelta(days=n)] and [(a - b).days]. *)
Definition add_days (d : date) (n : Z) : date :=
  civil_from_days (days_from_civil d + n).
Definition days_between (a b : date) : Z :=
  days_from_civil a - days_from_civil b.

(** Seconds since the epoch; a [date] compared with a timestamp column
    is that date at midnight. *)
Definition timestamp (t : datetime) : Z :=
  days_from_civil (dt_date t) * 86400 + dt_secs t.
Definition midnight (d : date) : datetime := mkDateTime d 0.

Definition dt_leb (a b : datetime) : bool := timestamp a <=? timestamp b.
Definition dt_ltb (a b : datetime) : bool := timestamp a <? timestamp b.
Definition date_leb (a b : date) : bool :=
  days_from_civil a <=? days_from_civil b.

(** SQL [extract('dow', t)]: 0 is Sunday.  SQL [extract('month', t)]. *)
Definition extract_dow (t : datetime) : Z :=
  (days_from_civil (dt_date t) + 4) mod 7.
Definition extract_month (t : datetime) : Z := month (dt_date t).

(** The time buckets of SQL [date_trunc] and [func.date]. *)
Inductive granularity : Type := Day | Week | Month | Quarter | Year.

Definition trunc (g : granularity) (t : datetime) : date :=
  let d := dt_date t in
  match g with
  | Day => d
  | Week => add_days d (- ((extract_dow t + 6) mod 7))
  | Month => mkDate (year d) (month d) 1
  | Quarter => mkDate (year d) (3 * ((month d - 1) / 3) + 1) 1
  | Year => mkDate (year d) 1 1
  end.

End Calendar.
Export Calendar.

(* ================================================================== *)
(** ** The sales table ([src/app/models/sales.py], class [Sale])        *)
(* ================================================================== *)

Module Sale.

Record t : Type := mk {
  id : Z;
  product_name : string;
  product_category : string;
  product_code : string;
  quantity : Z;
  unit_price : Q;
  total_price : Q;
  discount : option Q;
  pharmacy_name : option string;
  pharmacy_location : option string;
  customer_type : option string;
  sale_date : datetime;
  payment_method : option string;
  campaign_id : option string;
  sales_rep : option string;
  notes : option string;
  is_active : bool;
  created_at : datetime;
  updated_at : datetime
}.

End Sale.

(** The ledger: the rows of table [sales], in storage order. *)
Definition ledger : Type := list Sale.t.

#[global] Instance date_eq_dec : EqDecision date.
Proof. solve_decision. Defined.

(* ================================================================== *)
(** ** The SQL fragment the queries are written in                      *)
(* ================================================================== *)

Module Sql.

(** [SUM], [AVG] and [COUNT] over the rows a query selected.  [SUM] and
    [AVG] of no row are [NULL]. *)
Definition sum (xs : list Q) : option Q :=
  match xs with
  | [] => None
  | _ => Some (fold_left Qplus xs 0%Q)
  end.

Definition sumZ (xs : list Z) : option Z :=
  match xs with
  | [] => None
  | _ => Some (fold_left Z.add xs 0)
  end.

Definition count {A} (xs : list A) : Z := Z.of_nat (length xs).

Definition avg (xs : list Q) : option Q :=
  match xs with
  | [] => None
  | _ => Some (fold_left Qplus xs 0%Q / inject_Z (count xs))%Q
  end.

(** Aggregates skip [NULL] inputs. *)
Definition non_null {A} (xs : list (option A)) : list A :=
  omap (fun x => x) xs.

Definition count_distinct `{EqDecision A} (xs : list (option A)) : Z :=
  count (List.nodup (decide_rel eq) (non_null xs)).

Definition max_dt (xs : list datetime) : option datetime :=
  match xs with
  | [] => None
  | x :: rest =>
      Some (fold_left (fun m y => if dt_ltb m y then y else m) rest x)
  end.

(** [GROUP BY key]: one group per distinct key, holding the selected rows
    that have it. *)
Definition group_by {A} `{EqDecision K} (key : A -> K) (rows : list A)
  : list (K * list A) :=
  List.map
    (fun k => (k, List.filter (fun r => bool_decide (key r = k)) rows))
    (List.nodup (decide_rel eq) (List.map key rows)).

(** [ORDER BY]: a stable insertion sort under the order [leb]. *)
Fixpoint insert_by {A} (leb : A -> A -> bool) (x : A) (l : list A) : list A :=
  match l with
  | [] => [x]
  | y :: l' => if leb x y then x :: l else y :: insert_by leb x l'
  end.

Definition order_by {A} (leb : A -> A -> bool) (l : list A) : list A :=
  fold_right (insert_by leb) [] l.

(** [LIMIT n] and [OFFSET n] with a non-negative count. *)
Definition limit {A} (n : Z) (l : list A) : list A := firstn (Z.to_nat n) l.
Definition offset {A} (n : Z) (l : list A) : list A := skipn (Z.to_nat n) l.

(** [LIKE]: [%] matches any run of characters, [_] any one character and
    a backslash quotes the character after it. *)
Fixpoint like (p : list ascii) : list ascii -> bool :=
  match p with
  | [] => fun s => match s with [] => true | _ => false end
  | c :: p' =>
      if Ascii.eqb c "%"%char then
        fix any (s : list ascii) : bool :=
          like p' s || match s with [] => false | _ :: s' => any s' end
      else if Ascii.eqb c "\"%char then
        match p' with
        | [] => fun _ => false
        | q :: p'' =>
            fun s => match s with
                     | [] => false
                     | x :: s' => Ascii.eqb q x && like p'' s'
                     end
        end
      else
        fun s => match s with
                 | [] => false
                 | x :: s' =>
                     (Ascii.eqb c "_"%char || Ascii.eqb c x) && like p' s'
                 end
  end.

Definition lower (c : ascii) : ascii :=
  let n := nat_of_ascii c in
  if (65 <=? n)%nat && (n <=? 90)%nat then ascii_of_nat (n + 32) else c.

(** [column.ilike(pattern)]; a [NULL] column matches nothing. *)
Definition ilike (column : option string) (pattern : string) : bool :=
  match column with
  | None => false
  | Some s =>
      like (List.map lower (list_ascii_of_string pattern))
           (List.map lower (list_ascii_of_string s))
  end.

End Sql.

(* ================================================================== *)
(** ** numpy: the two array functions [get_customer_analysis] calls     *)
(* ================================================================== *)

Module Np.

(** [np.percentile(a, q)] with the default (linear) interpolation: the
    value at the virtual index [q/100 * (n-1)] of the sorted array,
    interpolated between its two neighbours. *)
Definition percentile1 (a : list Q) (q : Q) : Q :=
  let sorted := Sql.order_by Qle_bool a in
  let n := length a in
  let virtual := (q / 100 * inject_Z (Z.of_nat n - 1))%Q in
  let previous := Z.to_nat (Qfloor virtual) in
  let gamma := (virtual - inject_Z (Qfloor virtual))%Q in
  let lo := nth previous sorted 0%Q in
  let hi := nth (Nat.min (previous + 1) (n - 1)) sorted 0%Q in
  (lo + (hi - lo) * gamma)%Q.

Definition percentile (a : list Q) (qs : list Q) : list Q :=
  List.map (percentile1 a) qs.

Definition mean (a : list Q) : Q :=
  (Py.sum a / inject_Z (Z.of_nat (length a)))%Q.

End Np.

(* ================================================================== *)
(** ** [AnalyticsService] ([src/app/core/analytics.py])                 *)
(* ================================================================== *)

Module Analytics.

Local Open Scope string_scope.
Local Open Scope Z_scope.

(** [dict.get(key, default)]. *)
Definition dict_get (m : gmap string Q) (key : string) (dflt : Q) : Q :=
  default dflt (m !! key).

Definition or0Z (x : option Z) : Z := default 0 x.

(** The filter clause every aggregation shares:
    [Sale.sale_date >= start_date, Sale.sale_date <= end_date,
     Sale.is_active == True]. *)
Definition in_range (start_date end_date : date) (s : Sale.t) : bool :=
  dt_leb (midnight start_date) (Sale.sale_date s)
  && dt_leb (Sale.sale_date s) (midnight end_date)
  && Bool.eqb (Sale.is_active s) true.

Definition revenue_of (rows : list Sale.t) : option Q :=
  Sql.sum (List.map Sale.total_price rows).
Definition quantity_of (rows : list Sale.t) : option Z :=
  Sql.sumZ (List.map Sale.quantity rows).
Definition avg_price_of (rows : list Sale.t) : option Q :=
  Sql.avg (List.map Sale.total_price rows).

(** *** get_sales_performance *)

Module PerformanceRow.
Record t : Type := mk {
  period : date;
  revenue : Q;
  quantity : Z;
  transactions : Z;
  avg_order_value : Q
}.
End PerformanceRow.

(** The [if period == ... elif ... else] chain that picks [date_group]. *)
Definition performance_date_group (period : string) : granularity :=
  if String.eqb period "day" then Day
  else if String.eqb period "week" then Week
  else if String.eqb period "month" then Month
  else if String.eqb period "year" then Year
  else Month.

(** The grouped query, for the [date_group] expression chosen above. *)
Definition performance_query
  (date_group : Sale.t -> date) (db : ledger) (start_date end_date : date)
  : list PerformanceRow.t :=
  let results :=
    Sql.order_by (fun a b => date_leb (fst a) (fst b))
      (Sql.group_by date_group
         (List.filter (in_range start_date end_date) db)) in
  List.map
    (fun result =>
       PerformanceRow.mk
         (fst result)
         (or0 (revenue_of (snd result)))
         (or0Z (quantity_of (snd result)))
         (Sql.count (snd result))
         (or0 (avg_price_of (snd result))))
    results.

Definition get_sales_performance
  (db : ledger) (start_date end_date : date) (period : string)
  : list PerformanceRow.t :=
  performance_query
    (fun s => trunc (performance_date_group period) (Sale.sale_date s))
    db start_date end_date.

(** *** get_performance_summary *)

Definition get_performance_summary
  (db : ledger) (start_date end_date : date) : gmap string Q :=
  let rows := List.filter (in_range start_date end_date) db in
  <[ "total_revenue" := or0 (revenue_of rows) ]>
  (<[ "total_quantity" := inject_Z (or0Z (quantity_of rows)) ]>
  (<[ "total_transactions" := inject_Z (Sql.count rows) ]>
  (<[ "avg_order_value" := or0 (avg_price_of rows) ]>
  (<[ "unique_products" :=
        inject_Z (Sql.count_distinct
                    (List.map (fun s => Some (Sale.product_name s)) rows)) ]>
  (<[ "unique_pharmacies" :=
        inject_Z (Sql.count_distinct (List.map Sale.pharmacy_name rows)) ]>
   ∅))))).

(** *** get_market_share *)

Module MarketShareRow.
Record t : Type := mk {
  segment : string;
  revenue : Q;
  quantity : Z;
  transactions : Z;
  market_share_pct : Q
}.
End MarketShareRow.

(** The lookup table of grouping columns, with [product_category] as the
    [.get] default. *)
Definition market_share_field (group_by : string) : Sale.t -> option string :=
  if String.eqb group_by "product" then fun s => Some (Sale.product_name s)
  else if String.eqb group_by "category" then
    fun s => Some (Sale.product_category s)
  else if String.eqb group_by "pharmacy" then Sale.pharmacy_name
  else if String.eqb group_by "location" then Sale.pharmacy_location
  else fun s => Some (Sale.product_category s).

(** The rows of the grouped query: [(segment, revenue, quantity,
    transactions)], ordered by revenue, largest first. *)
Definition market_share_query
  (db : ledger) (start_date end_date : date) (group_by : string)
  : list (string * Q * Z * Z) :=
  let group_field := market_share_field group_by in
  let selected :=
    List.filter
      (fun s => in_range start_date end_date s
                && bool_decide (group_field s <> None)) db in
  let groups := Sql.group_by (fun s => default "" (group_field s)) selected in
  Sql.order_by
    (fun a b => Qle_bool (snd (fst (fst b))) (snd (fst (fst a))))
    (List.map
       (fun g => (fst g, or0 (revenue_of (snd g)),
                  or0Z (quantity_of (snd g)), Sql.count (snd g)))
       groups).

Definition market_share_total (results : list (string * Q * Z * Z)) : Q :=
  Py.sum (List.filter truthyQ (List.map (fun r => snd (fst (fst r))) results)).

Definition market_share_rows (results : list (string * Q * Z * Z))
  : list MarketShareRow.t :=
  let total_revenue := market_share_total results in
  List.map
    (fun r =>
       match r with
       | (segment, revenue, quantity, transactions) =>
           MarketShareRow.mk segment revenue quantity transactions
             (if Qltb 0 total_revenue
              then round2 (revenue / total_revenue * 100)
              else 0%Q)
       end)
    results.

Definition get_market_share
  (db : ledger) (start_date end_date : date) (group_by : string)
  : list MarketShareRow.t :=
  market_share_rows (market_share_query db start_date end_date group_by).

(** *** get_sales_trends *)

Module TrendRow.
Record t : Type := mk { date : Calendar.date; revenue : Q; quantity : Z }.
End TrendRow.

Definition get_sales_trends
  (db : ledger) (start_date end_date : date) (category : option string)
  : list TrendRow.t :=
  let query := List.filter (in_range start_date end_date) db in
  let query :=
    if truthy_str category then
      List.filter
        (fun s => Sql.ilike (Some (Sale.product_category s))
                    (String.append "%"
                       (String.append (default "" category) "%")))
        query
    else query in
  let results :=
    Sql.order_by (fun a b => date_leb (fst a) (fst b))
      (Sql.group_by (fun s => trunc Day (Sale.sale_date s)) query) in
  List.map
    (fun result =>
       TrendRow.mk (fst result)
         (or0 (revenue_of (snd result)))
         (or0Z (quantity_of (snd result))))
    results.

(** *** get_top_products *)

Module TopProductRow.
Record t : Type := mk {
  product_name : string;
  product_category : string;
  revenue : Q;
  quantity : Z;
  frequency : Z;
  avg_order_value : Q
}.
End TopProductRow.

(** The grouped row as the query returns it, before [LIMIT]. *)
Definition top_product_row (g : string * string * list Sale.t)
  : TopProductRow.t :=
  TopProductRow.mk (fst (fst g)) (snd (fst g))
    (or0 (revenue_of (snd g)))
    (or0Z (quantity_of (snd g)))
    (Sql.count (snd g))
    (or0 (avg_price_of (snd g))).

(** [desc(...)] of the metric's aggregate: [a] comes no later than [b]. *)
Definition top_products_order (metric : string)
  : TopProductRow.t -> TopProductRow.t -> bool :=
  if String.eqb metric "revenue" then
    fun a b => Qle_bool (TopProductRow.revenue b) (TopProductRow.revenue a)
  else if String.eqb metric "quantity" then
    fun a b => TopProductRow.quantity b <=? TopProductRow.quantity a
  else
    fun a b => TopProductRow.frequency b <=? TopProductRow.frequency a.

(** PostgreSQL refuses a negative [LIMIT]; the driver's error reaches the
    caller. *)
Definition get_top_products
  (db : ledger) (start_date end_date : date) (metric : string) (limit : Z)
  : result (list TopProductRow.t) :=
  let order_by := top_products_order metric in
  let grouped :=
    List.map top_product_row
      (Sql.group_by
         (fun s => (Sale.product_name s, Sale.product_category s))
         (List.filter (in_range start_date end_date) db)) in
  if limit <? 0 then Err StorageError
  else Ok (Sql.limit limit (Sql.order_by order_by grouped)).

(** *** get_customer_analysis *)

Module CustomerRow.
Record t : Type := mk {
  pharmacy_name : string;
  total_revenue : Q;
  total_quantity : Z;
  total_orders : Z;
  avg_order_value : Q;
  last_order_date : option date
}.
End CustomerRow.

Module Segments.
Record t : Type := mk { high_value : Z; medium_value : Z; low_value : Z }.
End Segments.

Module CustomerAnalysis.
Record t : Type := mk {
  total_customers : Z;
  segments : Segments.t;
  top_customers : list CustomerRow.t;
  avg_customer_value : Q
}.
End CustomerAnalysis.

Definition len {A} (l : list A) : Z := Z.of_nat (length l).

(** The three list comprehensions over [revenues], reading entries [2]
    and [1] of the percentile array. *)
Definition segments_of (revenues revenue_percentiles : list Q) : Segments.t :=
  let p1 := nth 1 revenue_percentiles 0%Q in
  let p2 := nth 2 revenue_percentiles 0%Q in
  Segments.mk
    (len (List.filter (fun r => Qle_bool p2 r) revenues))
    (len (List.filter (fun r => Qle_bool p1 r && Qltb r p2) revenues))
    (len (List.filter (fun r => Qltb r p1) revenues)).

Definition customers_query (db : ledger) (start_date end_date : date)
  : list CustomerRow.t :=
  let selected :=
    List.filter
      (fun s => in_range start_date end_date s
                && bool_decide (Sale.pharmacy_name s <> None)) db in
  List.map
    (fun g =>
       CustomerRow.mk (fst g)
         (or0 (revenue_of (snd g)))
         (or0Z (quantity_of (snd g)))
         (Sql.count (snd g))
         (or0 (avg_price_of (snd g)))
         (option_map dt_date (Sql.max_dt (List.map Sale.sale_date (snd g)))))
    (Sql.group_by (fun s => default "" (Sale.pharmacy_name s)) selected).

Definition get_customer_analysis
  (db : ledger) (start_date end_date : date) : CustomerAnalysis.t :=
  let customers := customers_query db start_date end_date in
  let revenues := List.map CustomerRow.total_revenue customers in
  let segments :=
    match revenues with
    | [] => Segments.mk 0 0 0
    | _ => segments_of revenues (Np.percentile revenues [33; 66; 90]%Q)
    end in
  let top_customers :=
    Sql.order_by
      (fun a b => Qle_bool (CustomerRow.total_revenue b)
                           (CustomerRow.total_revenue a))
      customers in
  CustomerAnalysis.mk
    (len customers) segments top_customers
    (match revenues with [] => 0%Q | _ => Np.mean revenues end).

(** *** get_revenue_analysis *)

Module RevenueRow.
Record t : Type := mk {
  period : date;
  revenue : Q;
  gross_revenue : Q;
  total_discount : Q;
  transactions : Z;
  discount_rate : Q
}.
End RevenueRow.

Definition revenue_date_group (group_by : string) : granularity :=
  if String.eqb group_by "day" then Day
  else if String.eqb group_by "week" then Week
  else if String.eqb group_by "quarter" then Quarter
  else Month.

Fixpoint mapM {A B} (f : A -> result B) (l : list A) : result (list B) :=
  match l with
  | [] => Ok []
  | x :: l' =>
      Py.bind (f x) (fun y => Py.bind (mapM f l') (fun ys => Ok (y :: ys)))
  end.

(** One result row.  [SUM(discount)] skips [NULL] discounts and is [NULL]
    when the bucket has no other; dividing that [None] raises. *)
Definition revenue_row (g : date * list Sale.t) : result RevenueRow.t :=
  let rows := snd g in
  let gross_revenue :=
    Sql.sum (List.map
               (fun s => (inject_Z (Sale.quantity s) * Sale.unit_price s)%Q)
               rows) in
  let total_discount := Sql.sum (Sql.non_null (List.map Sale.discount rows)) in
  Py.bind
    (if truthyQ (or0 gross_revenue) then
       match total_discount with
       | None => Err TypeError
       | Some d => Ok (round2 (d / or0 gross_revenue * 100))
       end
     else Ok 0%Q)
    (fun discount_rate =>
       Ok (RevenueRow.mk (fst g)
             (or0 (revenue_of rows))
             (or0 gross_revenue)
             (or0 total_discount)
             (Sql.count rows)
             discount_rate)).

Definition get_revenue_analysis
  (db : ledger) (start_date end_date : date) (group_by : string)
  : result (list RevenueRow.t) :=
  let date_group := fun s =>
    trunc (revenue_date_group group_by) (Sale.sale_date s) in
  mapM revenue_row
    (Sql.order_by (fun a b => date_leb (fst a) (fst b))
       (Sql.group_by date_group
          (List.filter (in_range start_date end_date) db))).

(** *** calculate_growth_rate *)

Module GrowthRate.
Record t : Type := mk {
  first_half_revenue : Q;
  second_half_revenue : Q;
  growth_rate_pct : Q
}.
End GrowthRate.

Definition mid_point (start_date end_date : date) : date :=
  let period_length := days_between end_date start_date in
  add_days start_date (period_length / 2).

Definition first_half (db : ledger) (start_date end_date : date) : Q :=
  or0 (revenue_of
         (List.filter
            (fun s =>
               dt_leb (midnight start_date) (Sale.sale_date s)
               && dt_ltb (Sale.sale_date s)
                         (midnight (mid_point start_date end_date))
               && Bool.eqb (Sale.is_active s) true)
            db)).

Definition second_half (db : ledger) (start_date end_date : date) : Q :=
  or0 (revenue_of
         (List.filter
            (fun s =>
               dt_leb (midnight (mid_point start_date end_date))
                      (Sale.sale_date s)
               && dt_leb (Sale.sale_date s) (midnight end_date)
               && Bool.eqb (Sale.is_active s) true)
            db)).

Definition calculate_growth_rate
  (db : ledger) (start_date end_date : date) : GrowthRate.t :=
  let first_half := first_half db start_date end_date in
  let second_half := second_half db start_date end_date in
  let growth_rate :=
    if Qltb 0 first_half
    then ((second_half - first_half) / first_half * 100)%Q
    else 0%Q in
  GrowthRate.mk first_half second_half (round2 growth_rate).

(** *** get_seasonality_analysis *)

Module Seasonality.
Record t : Type := mk {
  by_weekday : list (string * Q);
  by_month : list (string * Q)
}.
End Seasonality.

Definition weekdays : list string :=
  ["Dom"; "Seg"; "Ter"; "Qua"; "Qui"; "Sex"; "Sáb"].
Definition months : list string :=
  ["Jan"; "Fev"; "Mar"; "Abr"; "Mai"; "Jun";
   "Jul"; "Ago"; "Set"; "Out"; "Nov"; "Dez"].

Definition get_seasonality_analysis
  (db : ledger) (start_date end_date : date) : Seasonality.t :=
  let selected := List.filter (in_range start_date end_date) db in
  let weekday_sales :=
    Sql.group_by (fun s => extract_dow (Sale.sale_date s)) selected in
  let monthly_sales :=
    Sql.group_by (fun s => extract_month (Sale.sale_date s)) selected in
  Seasonality.mk
    (List.map
       (fun ws => (nth (Z.to_nat (fst ws)) weekdays "",
                   or0 (avg_price_of (snd ws))))
       weekday_sales)
    (List.map
       (fun ms => (nth (Z.to_nat (fst ms - 1)) months "",
                   or0 (avg_price_of (snd ms))))
       monthly_sales).

(** *** get_average_order_value *)

Definition get_average_order_value
  (db : ledger) (start_date end_date : date) : Q :=
  or0 (avg_price_of (List.filter (in_range start_date end_date) db)).

(** *** compare_periods *)

Module Change.
Record t : Type := mk { value : Q; change_pct : Q; direction : string }.
End Change.

Module Comparison.
Record t : Type := mk {
  revenue : Change.t;
  transactions : Change.t;
  avg_order_value : Change.t
}.
End Comparison.

Definition calc_change (current previous : Q) : Change.t :=
  if Qeq_bool previous 0 then Change.mk current 0%Q "neutral"
  else
    let change_pct := ((current - previous) / previous * 100)%Q in
    let direction :=
      if Qltb 0 change_pct then "up"
      else if Qltb change_pct 0 then "down"
      else "neutral" in
    Change.mk current (round2 change_pct) direction.

Definition compare_periods (current_summary previous_summary : gmap string Q)
  : Comparison.t :=
  Comparison.mk
    (calc_change (dict_get current_summary "total_revenue" 0)
                 (dict_get previous_summary "total_revenue" 0))
    (calc_change (dict_get current_summary "total_transactions" 0)
                 (dict_get previous_summary "total_transactions" 0))
    (calc_change (dict_get current_summary "avg_order_value" 0)
                 (dict_get previous_summary "avg_order_value" 0)).

End Analytics.

(* ================================================================== *)
(** ** Request schemas ([src/v2.0/app/schemas/sales.py])                *)
(* ================================================================== *)

Module SaleCreate.

Record t : Type := mk {
  product_name : string;
  product_category : string;
  product_code : string;
  quantity : Z;
  unit_price : Q;
  discount : option Q;
  pharmacy_name : option string;
  pharmacy_location : option string;
  customer_type : option string;
  payment_method : option string;
  campaign_id : option string;
  sales_rep : option string;
  notes : option string;
  sale_date : option datetime
}.

(** The two [@validator]s of the class, in declaration order; there is
    none on any other field. *)
Definition quantity_must_be_positive (v : Z) : result Z :=
  if v <=? 0 then Err ValidationError else Ok v.

Definition price_must_be_positive (v : Q) : result Q :=
  if Qle_bool v 0 then Err ValidationError else Ok v.

Definition validate (sale : t) : result t :=
  Py.bind (quantity_must_be_positive (quantity sale)) (fun _ =>
  Py.bind (price_must_be_positive (unit_price sale)) (fun _ =>
  Ok sale)).

End SaleCreate.

Module SaleUpdate.

(** Every field is [Optional] with default [None].  The outer [option]
    says whether the request set the field (what [exclude_unset] keeps),
    the inner one whether it set it to [null]. *)
Record t : Type := mk {
  product_name : option (option string);
  product_category : option (option string);
  quantity : option (option Z);
  unit_price : option (option Q);
  discount : option (option Q);
  pharmacy_name : option (option string);
  pharmacy_location : option (option string);
  customer_type : option (option string);
  payment_method : option (option string);
  notes : option (option string)
}.

Definition unset : t :=
  mk None None None None None None None None None None.

(** The request nulls no column that the table declares
    [nullable=False]. *)
Definition keeps_required (u : t) : Prop :=
  product_name u <> Some None
  /\ product_category u <> Some None
  /\ quantity u <> Some None
  /\ unit_price u <> Some None.

End SaleUpdate.

(* ================================================================== *)
(** ** Sales endpoints ([src/app/api/v1/sales.py])                      *)
(* ================================================================== *)

Module SalesApi.

Local Open Scope string_scope.
Local Open Scope Z_scope.

(** The next value of the [id] sequence. *)
Definition next_id (db : ledger) : Z :=
  1 + fold_right Z.max 0 (List.map Sale.id db).

(** [db.add(db_sale); db.commit()]: column [product_code] is declared
    [unique=True], so a second row with the same code is refused. *)
Definition insert (db : ledger) (row : Sale.t) : result ledger :=
  if existsb (fun s => String.eqb (Sale.product_code s) (Sale.product_code row)) db
  then Err IntegrityError
  else Ok (db ++ [row])%list.

(** The body of [create_sale], run on a parsed [SaleCreate]. *)
Definition create_sale (db : ledger) (now : datetime) (sale : SaleCreate.t)
  : result (ledger * Sale.t) :=
  let total_price :=
    (inject_Z (SaleCreate.quantity sale) * SaleCreate.unit_price sale
     - or0 (SaleCreate.discount sale))%Q in
  let db_sale :=
    Sale.mk (next_id db)
      (SaleCreate.product_name sale)
      (SaleCreate.product_category sale)
      (SaleCreate.product_code sale)
      (SaleCreate.quantity sale)
      (SaleCreate.unit_price sale)
      total_price
      (SaleCreate.discount sale)
      (SaleCreate.pharmacy_name sale)
      (SaleCreate.pharmacy_location sale)
      (SaleCreate.customer_type sale)
      (default now (SaleCreate.sale_date sale))
      (SaleCreate.payment_method sale)
      (SaleCreate.campaign_id sale)
      (SaleCreate.sales_rep sale)
      (SaleCreate.notes sale)
      true now now in
  Py.bind (insert db db_sale) (fun db' => Ok (db', db_sale)).

(** The endpoint as a client reaches it: the framework builds the
    [SaleCreate] (running its validators) and then calls the body. *)
Definition post_sale (db : ledger) (now : datetime) (body : SaleCreate.t)
  : result (ledger * Sale.t) :=
  Py.bind (SaleCreate.validate body) (create_sale db now).

(** *** get_sales *)

Module SalesResponse.
Record t : Type := mk {
  sales : list Sale.t;
  total : Z;
  page : Z;
  per_page : Z
}.
End SalesResponse.

Definition contains (needle : string) : string :=
  String.append "%" (String.append needle "%").

Definition get_sales
  (db : ledger) (skip limit : Z)
  (product_name category pharmacy : option string)
  (start_date end_date : option date) : result SalesResponse.t :=
  if skip <? 0 then Err ValidationError
  else if 1000 <? limit then Err ValidationError
  else
    let query := List.filter (fun s => Bool.eqb (Sale.is_active s) true) db in
    let query :=
      if truthy_str product_name then
        List.filter
          (fun s => Sql.ilike (Some (Sale.product_name s))
                      (contains (default "" product_name))) query
      else query in
    let query :=
      if truthy_str category then
        List.filter
          (fun s => Sql.ilike (Some (Sale.product_category s))
                      (contains (default "" category))) query
      else query in
    let query :=
      if truthy_str pharmacy then
        List.filter
          (fun s => Sql.ilike (Sale.pharmacy_name s)
                      (contains (default "" pharmacy))) query
      else query in
    let query :=
      match start_date with
      | Some d =>
          List.filter (fun s => dt_leb (midnight d) (Sale.sale_date s)) query
      | None => query
      end in
    let query :=
      match end_date with
      | Some d =>
          List.filter (fun s => dt_leb (Sale.sale_date s) (midnight d)) query
      | None => query
      end in
    let total := Sql.count query in
    if limit <? 0 then Err StorageError
    else
      let sales :=
        Sql.limit limit
          (Sql.offset skip
             (Sql.order_by
                (fun a b => dt_leb (Sale.sale_date b) (Sale.sale_date a))
                query)) in
      if limit =? 0 then Err ZeroDivisionError
      else Ok (SalesResponse.mk sales total (skip / limit + 1) limit).

(** [db.query(Sale).filter(Sale.id == sale_id, Sale.is_active == True).first()] *)
Definition find_active (db : ledger) (sale_id : Z) : option Sale.t :=
  List.find
    (fun s => (Sale.id s =? sale_id) && Bool.eqb (Sale.is_active s) true) db.

Definition get_sale (db : ledger) (sale_id : Z) : result Sale.t :=
  match find_active db sale_id with
  | None => Err HTTP404
  | Some sale => Ok sale
  end.

(** Write [new] back over the row [find_active] returned. *)
Fixpoint store (db : ledger) (sale_id : Z) (new : Sale.t) : ledger :=
  match db with
  | [] => []
  | s :: db' =>
      if (Sale.id s =? sale_id) && Bool.eqb (Sale.is_active s) true
      then new :: db'
      else s :: store db' sale_id new
  end.

(** [setattr(sale, field, value)] for a field the request may have set:
    the attribute afterwards, [None] when [null] was written. *)
Definition setattr {A} (update : option (option A)) (current : option A)
  : option A :=
  match update with
  | Some value => value
  | None => current
  end.

(** A column declared [nullable=False] refuses [None] at commit. *)
Definition not_null {A} (x : option A) : result A :=
  match x with
  | Some v => Ok v
  | None => Err IntegrityError
  end.

Definition is_set {A} (update : option (option A)) : bool :=
  match update with Some _ => true | None => false end.

(** [any(field in update_data for field in ['quantity', 'unit_price',
    'discount'])]. *)
Definition recalculates (sale_update : SaleUpdate.t) : bool :=
  is_set (SaleUpdate.quantity sale_update)
  || is_set (SaleUpdate.unit_price sale_update)
  || is_set (SaleUpdate.discount sale_update).

Definition update_sale
  (db : ledger) (now : datetime) (sale_id : Z) (sale_update : SaleUpdate.t)
  : result (ledger * Sale.t) :=
  match find_active db sale_id with
  | None => Err HTTP404
  | Some sale =>
      let product_name :=
        setattr (SaleUpdate.product_name sale_update)
                (Some (Sale.product_name sale)) in
      let product_category :=
        setattr (SaleUpdate.product_category sale_update)
                (Some (Sale.product_category sale)) in
      let quantity :=
        setattr (SaleUpdate.quantity sale_update)
                (Some (Sale.quantity sale)) in
      let unit_price :=
        setattr (SaleUpdate.unit_price sale_update)
                (Some (Sale.unit_price sale)) in
      let discount :=
        setattr (SaleUpdate.discount sale_update) (Sale.discount sale) in
      let total_price :=
        if recalculates sale_update then
          match quantity, unit_price with
          | Some q, Some p => Ok (inject_Z q * p - or0 discount)%Q
          | _, _ => Err TypeError
          end
        else Ok (Sale.total_price sale) in
      Py.bind total_price (fun total_price =>
      Py.bind (not_null product_name) (fun product_name =>
      Py.bind (not_null product_category) (fun product_category =>
      Py.bind (not_null quantity) (fun quantity =>
      Py.bind (not_null unit_price) (fun unit_price =>
        let sale' :=
          Sale.mk (Sale.id sale) product_name product_category
            (Sale.product_code sale) quantity unit_price total_price discount
            (setattr (SaleUpdate.pharmacy_name sale_update)
                     (Sale.pharmacy_name sale))
            (setattr (SaleUpdate.pharmacy_location sale_update)
                     (Sale.pharmacy_location sale))
            (setattr (SaleUpdate.customer_type sale_update)
                     (Sale.customer_type sale))
            (Sale.sale_date sale)
            (setattr (SaleUpdate.payment_method sale_update)
                     (Sale.payment_method sale))
            (Sale.campaign_id sale)
            (Sale.sales_rep sale)
            (setattr (SaleUpdate.notes sale_update) (Sale.notes sale))
            (Sale.is_active sale)
            (Sale.created_at sale)
            now in
        Ok (store db sale_id sale', sale'))))))
  end.

(** [delete_sale]: the soft delete. *)
Definition delete_sale (db : ledger) (now : datetime) (sale_id : Z)
  : result ledger :=
  match find_active db sale_id with
  | None => Err HTTP404
  | Some sale =>
      let sale' :=
        Sale.mk (Sale.id sale) (Sale.product_name sale)
          (Sale.product_category sale) (Sale.product_code sale)
          (Sale.quantity sale) (Sale.unit_price sale) (Sale.total_price sale)
          (Sale.discount sale) (Sale.pharmacy_name sale)
          (Sale.pharmacy_location sale) (Sale.customer_type sale)
          (Sale.sale_date sale) (Sale.payment_method sale)
          (Sale.campaign_id sale) (Sale.sales_rep sale) (Sale.notes sale)
          false (Sale.created_at sale) now in
      Ok (store db sale_id sale')
  end.

End SalesApi.

(* ================================================================== *)
(** ** [ReportsService] ([src/app/core/reports.py])                     *)
(* ================================================================== *)

Module Reports.

Local Open Scope string_scope.
Local Open Scope Z_scope.

(** The insight sentences.  Each constructor is one f-string of
    [_generate_insights]; its argument is the number the f-string prints.
      - [RevenueExcellent g]: "Excelente crescimento de receita: g% vs período anterior"
      - [RevenuePositive g]:  "Crescimento positivo de receita: g% vs período anterior"
      - [RevenueDeclining g]: "Receita em declínio: g% vs período anterior - investigar causas"
      - [HighConcentration c]: "Alta concentração: Top 5 produtos representam c% da receita"
      - [WellDistributed c]:   "Receita bem distribuída: Top 5 produtos representam c% da receita"
      - [TicketGrowing]:  "Ticket médio em crescimento - estratégia de preços funcionando"
      - [TicketDeclining]: "Ticket médio em declínio - avaliar estratégia de preços"
      - [PortfolioDiversified]: "Portfolio diversificado com mais de 50 produtos únicos"
      - [PortfolioConcentrated]: "Portfolio concentrado - considerar expansão de produtos" *)
Inductive insight : Type :=
| RevenueExcellent (revenue_growth : Q)
| RevenuePositive (revenue_growth : Q)
| RevenueDeclining (revenue_growth : Q)
| HighConcentration (concentration : Q)
| WellDistributed (concentration : Q)
| TicketGrowing
| TicketDeclining
| PortfolioDiversified
| PortfolioConcentrated.

Definition is_revenue_insight (i : insight) : bool :=
  match i with
  | RevenueExcellent _ | RevenuePositive _ | RevenueDeclining _ => true
  | _ => false
  end.

Definition revenue_growth (current previous : gmap string Q) : Q :=
  ((Analytics.dict_get current "total_revenue" 0
    - Analytics.dict_get previous "total_revenue" 0)
   / maxQ (Analytics.dict_get previous "total_revenue" 1) 1 * 100)%Q.

(** [_generate_insights]; [insights.append] becomes list append.  The
    [market_share] argument is accepted and not read. *)
Definition _generate_insights
  (current previous : gmap string Q)
  (top_products : list Analytics.TopProductRow.t)
  (market_share : list Analytics.MarketShareRow.t)
  : result (list insight) :=
  let insights : list insight := [] in
  let revenue_growth := revenue_growth current previous in
  let insights :=
    if Qltb 10 revenue_growth then
      (insights ++ [RevenueExcellent revenue_growth])%list
    else if Qltb 0 revenue_growth then
      (insights ++ [RevenuePositive revenue_growth])%list
    else (insights ++ [RevenueDeclining revenue_growth])%list in
  Py.bind
    (match top_products with
     | [] => Ok insights
     | _ =>
         let top_5_revenue :=
           Py.sum (List.map Analytics.TopProductRow.revenue
                     (firstn 5 top_products)) in
         let total_revenue := Analytics.dict_get current "total_revenue" 1 in
         if Qeq_bool total_revenue 0 then Err ZeroDivisionError
         else
           let concentration := (top_5_revenue / total_revenue * 100)%Q in
           if Qltb 80 concentration then
             Ok (insights ++ [HighConcentration concentration])%list
           else if Qltb concentration 50 then
             Ok (insights ++ [WellDistributed concentration])%list
           else Ok insights
     end)
    (fun insights =>
       let avg_order_current :=
         Analytics.dict_get current "avg_order_value" 0 in
       let avg_order_previous :=
         Analytics.dict_get previous "avg_order_value" 0 in
       let insights :=
         if Qltb (avg_order_previous * (105 # 100)) avg_order_current then
           (insights ++ [TicketGrowing])%list
         else if Qltb avg_order_current (avg_order_previous * (95 # 100)) then
           (insights ++ [TicketDeclining])%list
         else insights in
       let unique_products :=
         Analytics.dict_get current "unique_products" 0 in
       let insights :=
         if Qltb 50 unique_products then
           (insights ++ [PortfolioDiversified])%list
         else if Qltb unique_products 20 then
           (insights ++ [PortfolioConcentrated])%list
         else insights in
       Ok insights).

(** The insight call of [generate_executive_summary]: the current and the
    preceding range's summaries, the top ten products by revenue and the
    market share by category. *)
Definition executive_summary_insights
  (db : ledger) (start_date end_date : date) : result (list insight) :=
  let period_length := days_between end_date start_date in
  let prev_start := add_days start_date (- period_length) in
  let prev_end := add_days start_date (- 1) in
  let current_summary :=
    Analytics.get_performance_summary db start_date end_date in
  Py.bind (Analytics.get_top_products db start_date end_date "revenue" 10)
    (fun top_products =>
       let market_share :=
         Analytics.get_market_share db start_date end_date "category" in
       let prev_summary :=
         Analytics.get_performance_summary db prev_start prev_end in
       _generate_insights current_summary prev_summary
         top_products market_share).

End Reports.

(* ================================================================== *)
(** ** [MathUtils] ([src/v2.0/app/utils/data_processing.py])            *)
(* ================================================================== *)

Module MathUtils.

Definition safe_divide (numerator denominator dflt : Q) : Q :=
  if Qeq_bool denominator 0 then dflt else (numerator / denominator)%Q.

Definition calculate_percentage_change (old_value new_value : Q) : Q :=
  if Qeq_bool old_value 0 then
    if Qltb 0 new_value then 100%Q else 0%Q
  else ((new_value - old_value) / old_value * 100)%Q.

End MathUtils.

(* ================================================================== *)
(** ** A small ledger used by the worked examples                       *)
(* ================================================================== *)

Module Sample.

Local Open Scope string_scope.
Local Open Scope Z_scope.

Definition noon (y m d : Z) : datetime := mkDateTime (mkDate y m d) 43200.

(** A row as [create_sale] would have stored it. *)
Definition row (id : Z) (name category code : string)
  (quantity : Z) (unit_price discount : Q) (pharmacy : string)
  (sold : datetime) (active : bool) : Sale.t :=
  Sale.mk id name category code quantity unit_price
    (inject_Z quantity * unit_price - discount)%Q (Some discount)
    (Some pharmacy) (Some "Lisboa") (Some "retail")
    sold (Some "card") None None None active sold sold.

Definition sale_a : Sale.t :=
  row 1 "Dipirona" "Analgesicos" "P-001" 1 100 0 "Alpha" (noon 2024 1 5) true.
Definition sale_b : Sale.t :=
  row 2 "Amoxicilina" "Antibioticos" "P-002" 2 100 0 "Alpha" (noon 2024 1 5) true.
Definition sale_c : Sale.t :=
  row 3 "Vitamina C" "Vitaminas" "P-003" 3 100 0 "Beta" (noon 2024 2 10) true.
(** A soft-deleted sale of revenue 1000 inside the range. *)
Definition sale_d : Sale.t :=
  row 4 "Dipirona" "Analgesicos" "P-004" 10 100 0 "Gamma" (noon 2024 1 20) false.

Definition db : ledger := [sale_a; sale_b; sale_d; sale_c].
Definition db_without_deleted : ledger := [sale_a; sale_b; sale_c].

Definition jan_1 : date := mkDate 2024 1 1.
Definition feb_28 : date := mkDate 2024 2 28.


(** A sale discounted to nothing: its revenue is 0. *)
Definition sale_free : Sale.t :=
  row 1 "Dipirona" "Analgesicos" "P-001" 1 10 10 "Alpha" (noon 2024 1 5) true.

(** The clock of the creation examples, and a request dated a year later. *)
Definition now : datetime := noon 2024 3 1.

Definition future_sale : SaleCreate.t :=
  SaleCreate.mk "Dipirona" "Analgesicos" "P-100" 2 (25 # 2) (Some 0%Q)
    (Some "Alpha") None None None None None None (Some (noon 2025 3 1)).

(** Two update requests: one for the notes only, one for the quantity. *)
Definition notes_only : SaleUpdate.t :=
  SaleUpdate.mk None None None None None None None None None
    (Some (Some "entregue")).

Definition new_quantity : SaleUpdate.t :=
  SaleUpdate.mk None None (Some (Some 5)) None None None None None None None.

Definition summary_of (revenue transactions avg : Q) : gmap string Q :=
  <[ "total_revenue" := revenue ]>
  (<[ "total_transactions" := transactions ]>
  (<[ "avg_order_value" := avg ]> ∅)).

(** Five pharmacies with revenues 100, 200, 300, 400 and 500. *)
Definition five_customers : ledger :=
  [ row 1 "Dipirona" "Analgesicos" "P-001" 1 100 0 "Alpha" (noon 2024 1 5) true;
    row 2 "Dipirona" "Analgesicos" "P-002" 2 100 0 "Beta" (noon 2024 1 6) true;
    row 3 "Dipirona" "Analgesicos" "P-003" 3 100 0 "Gamma" (noon 2024 1 7) true;
    row 4 "Dipirona" "Analgesicos" "P-004" 4 100 0 "Delta" (noon 2024 1 8) true;
    row 5 "Dipirona" "Analgesicos" "P-005" 5 100 0 "Epsilon" (noon 2024 1 9) true ].

End Sample.

(* ================================================================== *)
(** ** The specification's vocabulary, for comparison with the code     *)
(* ================================================================== *)

Module Spec.

Local Open Scope string_scope.

(** Section 4.1 on [sales_performance]: "period in {day, week, month,
    quarter, year} selects the truncation granularity for sale_date ...
    Unsupported period values fall back to month-level truncation". *)
Definition period_granularity (period : string) : granularity :=
  if String.eqb period "day" then Day
  else if String.eqb period "week" then Week
  else if String.eqb period "month" then Month
  else if String.eqb period "quarter" then Quarter
  else if String.eqb period "year" then Year
  else Month.

Definition sales_performance
  (db : ledger) (start_date end_date : date) (period : string)
  : list Analytics.PerformanceRow.t :=
  Analytics.performance_query
    (fun s => trunc (period_granularity period) (Sale.sale_date s))
    db start_date end_date.

End Spec.

(* ================================================================== *)
(** * Properties                                                       *)
(* ================================================================== *)


Lemma Qltb_lt x y : Qltb x y = true <-> (x < y)%Q.
Proof.
  unfold Qltb. rewrite negb_true_iff.
  destruct (Qle_bool y x) eqn:E.
  - apply Qle_bool_iff in E. split; [discriminate | intros H; lra].
  - split; [intros _ | reflexivity].
    destruct (Qlt_le_dec x y) as [H | H]; [exact H |].
    apply Qle_bool_iff in H. congruence.
Qed.

Lemma Qltb_ge x y : Qltb x y = false <-> (y <= x)%Q.
Proof.
  unfold Qltb. rewrite negb_false_iff. apply Qle_bool_iff.
Qed.

Lemma date_eqb_eq a b : date_eqb a b = true <-> a = b.
Proof.
  destruct a, b; unfold date_eqb; simpl.
  rewrite !andb_true_iff, !Z.eqb_eq. split.
  - intros [[-> ->] ->]. reflexivity.
  - intros H; inversion H; auto.
Qed.

Example days_from_civil_epoch : days_from_civil (mkDate 1970 1 1) = 0.
Proof. reflexivity. Qed.

Example civil_roundtrip_2024_02_29 :
civil_from_days (days_from_civil (mkDate 2024 2 29)) = mkDate 2024 2 29.
Proof. reflexivity. Qed.

Example trunc_week_2024_01_05 :
trunc Week (midnight (mkDate 2024 1 5)) = mkDate 2024 1 1.
Proof. reflexivity. Qed.

Example trunc_quarter_2024_02_10 :
trunc Quarter (midnight (mkDate 2024 2 10)) = mkDate 2024 1 1.
Proof. reflexivity. Qed.

Example like_contains :
  Sql.ilike (Some "Analgesicos"%string) "%GES%"%string = true.
Proof. reflexivity. Qed.

Example like_rejects :
  Sql.ilike (Some "Vitaminas"%string) "%ges%"%string = false.
Proof. reflexivity. Qed.

Example order_by_is_stable :
  Sql.order_by (fun a b : Z * Z => fst b <=? fst a) [(1, 1); (2, 2); (1, 3); (2, 4)]
  = [(2, 2); (2, 4); (1, 1); (1, 3)].
Proof. reflexivity. Qed.

(* ------------------------------------------------------------------ *)
(** ** Rounding                                                        *)
(* ------------------------------------------------------------------ *)

Lemma round_half_even_zero (x : Q) : (x == 0)%Q -> round_half_even x = 0%Z.
Proof.
  intros Hx. unfold round_half_even.
  assert (Hf : Qfloor x = 0%Z).
  { rewrite (Qfloor_comp x 0 Hx). reflexivity. }
  rewrite Hf.
  assert (Hr : Qltb (x - inject_Z 0) (1 # 2) = true).
  { apply Qltb_lt. rewrite Hx. reflexivity. }
  rewrite Hr. reflexivity.
Qed.

Lemma round2_zero (x : Q) : (x == 0)%Q -> (round2 x == 0)%Q.
Proof.
  intros Hx. unfold round2.
  rewrite round_half_even_zero; [reflexivity |].
  rewrite Hx. reflexivity.
Qed.



(* ------------------------------------------------------------------ *)
(** ** Zero baselines                                                  *)
(* ------------------------------------------------------------------ *)

Lemma calc_change_zero_baseline (current previous : Q) :
  (previous == 0)%Q ->
  Analytics.calc_change current previous
  = Analytics.Change.mk current 0%Q "neutral".
Proof.
  intros H. unfold Analytics.calc_change.
  rewrite (Qeq_eq_bool _ _ H). reflexivity.
Qed.

(** C4.  A zero baseline is reported as no change.  [calculate_growth_rate]
    returns [growth_rate_pct = 0] whenever the first half's revenue is 0,
    whatever the second half's is; [compare_periods] returns
    [change_pct = 0] and direction ["neutral"] for revenue, for the
    transaction count and for the average order value whenever the
    previous summary's value of that metric is 0, whatever the current
    value is. *)
Theorem C4_zero_baseline_is_no_change
  (db : ledger) (start_date end_date : date)
  (current_summary previous_summary : gmap string Q) :
  ((Analytics.first_half db start_date end_date == 0)%Q ->
   (Analytics.GrowthRate.growth_rate_pct
      (Analytics.calculate_growth_rate db start_date end_date) == 0)%Q)
  /\
  ((Analytics.dict_get previous_summary "total_revenue" 0 == 0)%Q ->
   let c := Analytics.Comparison.revenue
              (Analytics.compare_periods current_summary previous_summary) in
   Analytics.Change.change_pct c = 0%Q
   /\ Analytics.Change.direction c = "neutral"%string)
  /\
  ((Analytics.dict_get previous_summary "total_transactions" 0 == 0)%Q ->
   let c := Analytics.Comparison.transactions
              (Analytics.compare_periods current_summary previous_summary) in
   Analytics.Change.change_pct c = 0%Q
   /\ Analytics.Change.direction c = "neutral"%string)
  /\
  ((Analytics.dict_get previous_summary "avg_order_value" 0 == 0)%Q ->
   let c := Analytics.Comparison.avg_order_value
              (Analytics.compare_periods current_summary previous_summary) in
   Analytics.Change.change_pct c = 0%Q
   /\ Analytics.Change.direction c = "neutral"%string).
Proof.
  repeat split.
  - intros H. unfold Analytics.calculate_growth_rate. simpl.
    apply round2_zero.
    destruct (Qltb 0 (Analytics.first_half db start_date end_date)) eqn:E;
      [| reflexivity].
    apply Qltb_lt in E. rewrite H in E. discriminate E.
  - unfold Analytics.compare_periods; simpl.
    rewrite calc_change_zero_baseline by assumption. reflexivity.
  - unfold Analytics.compare_periods; simpl.
    rewrite calc_change_zero_baseline by assumption. reflexivity.
  - unfold Analytics.compare_periods; simpl.
    rewrite calc_change_zero_baseline by assumption. reflexivity.
  - unfold Analytics.compare_periods; simpl.
    rewrite calc_change_zero_baseline by assumption. reflexivity.
  - unfold Analytics.compare_periods; simpl.
    rewrite calc_change_zero_baseline by assumption. reflexivity.
  - unfold Analytics.compare_periods; simpl.
    rewrite calc_change_zero_baseline by assumption. reflexivity.
Qed.

(* ------------------------------------------------------------------ *)
(** ** [ORDER BY], [LIMIT] and [GROUP BY]                               *)
(* ------------------------------------------------------------------ *)

Section OrderBy.

Context {A : Type} (leb : A -> A -> bool).

Let R (a b : A) : Prop := leb a b = true.

Hypothesis leb_total : forall a b, leb a b = true \/ leb b a = true.
Hypothesis leb_trans :
  forall a b c, leb a b = true -> leb b c = true -> leb a c = true.

Lemma insert_by_perm (x : A) (l : list A) :
  Permutation (Sql.insert_by leb x l) (x :: l).
Proof using Type.
  induction l as [| y l IH]; simpl.
  - reflexivity.
  - destruct (leb x y).
    + reflexivity.
    + rewrite IH. apply perm_swap.
Qed.

Lemma order_by_perm (l : list A) : Permutation (Sql.order_by leb l) l.
Proof using Type.
  induction l as [| x l IH]; simpl.
  - reflexivity.
  - unfold Sql.order_by in *. simpl.
    rewrite insert_by_perm. now rewrite IH.
Qed.

Lemma order_by_length (l : list A) :
  length (Sql.order_by leb l) = length l.
Proof using Type. apply Permutation_length, order_by_perm. Qed.

Lemma order_by_In (x : A) (l : list A) :
  In x (Sql.order_by leb l) <-> In x l.
Proof using Type.
  split; apply Permutation_in;
    [apply order_by_perm | symmetry; apply order_by_perm].
Qed.

Lemma insert_by_HdRel (a x : A) (l : list A) :
  R a x -> HdRel R a l -> HdRel R a (Sql.insert_by leb x l).
Proof using Type.
  intros Hax Hl. destruct l as [| y l]; simpl.
  - constructor. exact Hax.
  - destruct (leb x y); constructor.
    + exact Hax.
    + inversion Hl; assumption.
Qed.

Lemma insert_by_Sorted (x : A) (l : list A) :
  Sorted R l -> Sorted R (Sql.insert_by leb x l).
Proof using leb_total.
  induction 1 as [| y l Hs IH Hd]; simpl.
  - repeat constructor.
  - destruct (leb x y) eqn:E.
    + constructor; [constructor; assumption | constructor; exact E].
    + constructor; [exact IH |].
      apply insert_by_HdRel; [| exact Hd].
      destruct (leb_total x y) as [H | H]; [congruence | exact H].
Qed.

Lemma order_by_Sorted (l : list A) : Sorted R (Sql.order_by leb l).
Proof using leb_total.
  induction l as [| x l IH]; simpl.
  - constructor.
  - apply insert_by_Sorted. exact IH.
Qed.

Lemma order_by_StronglySorted (l : list A) :
  StronglySorted R (Sql.order_by leb l).
Proof using leb_total leb_trans.
  apply Sorted_StronglySorted.
  - intros a b c. apply leb_trans.
  - apply order_by_Sorted.
Qed.

End OrderBy.

Lemma In_firstn {A} (x : A) (n : nat) (l : list A) :
  In x (firstn n l) -> In x l.
Proof.
  revert n. induction l as [| y l IH]; intros [| n]; simpl; try tauto.
  intros [H | H]; [left; exact H | right; eapply IH; exact H].
Qed.

Lemma StronglySorted_firstn {A} (R : A -> A -> Prop) (n : nat) (l : list A) :
  StronglySorted R l -> StronglySorted R (firstn n l).
Proof.
  intros H. revert n.
  induction H as [| x l Hs IH Hall]; intros [| n]; simpl; try constructor.
  - apply IH.
  - rewrite List.Forall_forall in *. intros y Hy.
    apply Hall. eapply In_firstn. exact Hy.
Qed.

Lemma StronglySorted_impl {A} (R R' : A -> A -> Prop) (l : list A) :
  (forall a b, R a b -> R' a b) -> StronglySorted R l -> StronglySorted R' l.
Proof.
  intros HR. induction 1 as [| x l Hs IH Hall]; constructor.
  - exact IH.
  - rewrite List.Forall_forall in *. intros y Hy. apply HR, Hall, Hy.
Qed.

Lemma StronglySorted_map {A B} (R : B -> B -> Prop) (f : A -> B) (l : list A) :
  StronglySorted (fun a b => R (f a) (f b)) l ->
  StronglySorted R (List.map f l).
Proof.
  induction 1 as [| x l Hs IH Hall]; simpl; constructor.
  - exact IH.
  - rewrite List.Forall_forall in *. intros y Hy.
    apply in_map_iff in Hy. destruct Hy as [a [<- Ha]]. apply Hall, Ha.
Qed.

Lemma StronglySorted_nth {A} (R : A -> A -> Prop) (l : list A) (d : A) :
  StronglySorted R l ->
  forall i j, (i < j)%nat -> (j < length l)%nat -> R (nth i l d) (nth j l d).
Proof.
  induction 1 as [| x l Hs IH Hall]; intros i j Hij Hj; simpl in *.
  - lia.
  - destruct j as [| j]; [lia |].
    destruct i as [| i].
    + rewrite List.Forall_forall in Hall. apply Hall. apply nth_In. lia.
    + apply IH; lia.
Qed.

Section GroupBy.

Context {A K : Type} `{EqDecision K} (key : A -> K).

Lemma group_by_keys (rows : list A) :
  List.map fst (Sql.group_by key rows)
  = List.nodup (decide_rel eq) (List.map key rows).
Proof using Type.
  unfold Sql.group_by. rewrite List.map_map. simpl. apply List.map_id.
Qed.

Lemma group_by_NoDup (rows : list A) :
  List.NoDup (List.map fst (Sql.group_by key rows)).
Proof using Type.
  rewrite group_by_keys. apply List.NoDup_nodup.
Qed.

(** A group holds exactly the selected rows that carry its key. *)
Lemma group_by_In (k : K) (g : list A) (rows : list A) :
  In (k, g) (Sql.group_by key rows) ->
  In k (List.map key rows)
  /\ g = List.filter (fun r => bool_decide (key r = k)) rows.
Proof using Type.
  unfold Sql.group_by. intros H.
  apply in_map_iff in H. destruct H as [k' [Heq Hin]].
  inversion Heq; subst. split; [| reflexivity].
  apply List.nodup_In in Hin. exact Hin.
Qed.

(** Every selected row falls in the group of its key. *)
Lemma group_by_complete (r : A) (rows : list A) :
  In r rows ->
  In (key r, List.filter (fun r' => bool_decide (key r' = key r)) rows)
     (Sql.group_by key rows).
Proof using Type.
  intros H. unfold Sql.group_by.
  apply in_map_iff. exists (key r). split; [reflexivity |].
  apply List.nodup_In. apply in_map. exact H.
Qed.

Lemma group_by_nonempty (k : K) (g : list A) (rows : list A) :
  In (k, g) (Sql.group_by key rows) -> g <> [].
Proof using Type.
  intros H. apply group_by_In in H. destruct H as [Hk ->].
  apply in_map_iff in Hk. destruct Hk as [r [Hr Hin]].
  intros Hnil.
  assert (In r (List.filter (fun r0 => bool_decide (key r0 = k)) rows)) as Hf.
  { apply List.filter_In. split; [exact Hin |].
    apply bool_decide_eq_true. exact Hr. }
  rewrite Hnil in Hf. inversion Hf.
Qed.

End GroupBy.

(* ------------------------------------------------------------------ *)
(** ** The orders the queries sort by                                  *)
(* ------------------------------------------------------------------ *)

Lemma Qle_bool_total (a b : Q) : Qle_bool a b = true \/ Qle_bool b a = true.
Proof.
  destruct (Qlt_le_dec a b) as [H | H].
  - left. apply Qle_bool_iff. apply Qlt_le_weak, H.
  - right. apply Qle_bool_iff, H.
Qed.

Lemma Qle_bool_trans (a b c : Q) :
  Qle_bool a b = true -> Qle_bool b c = true -> Qle_bool a c = true.
Proof.
  rewrite !Qle_bool_iff. apply Qle_trans.
Qed.

Lemma Zleb_total (a b : Z) : (a <=? b)%Z = true \/ (b <=? a)%Z = true.
Proof. rewrite !Z.leb_le. lia. Qed.

Lemma Zleb_trans (a b c : Z) :
  (a <=? b)%Z = true -> (b <=? c)%Z = true -> (a <=? c)%Z = true.
Proof. rewrite !Z.leb_le. lia. Qed.

Lemma top_products_order_total (metric : string) a b :
  Analytics.top_products_order metric a b = true
  \/ Analytics.top_products_order metric b a = true.
Proof.
  unfold Analytics.top_products_order.
  destruct (String.eqb metric "revenue"); [apply Qle_bool_total |].
  destruct (String.eqb metric "quantity"); apply Zleb_total.
Qed.

Lemma top_products_order_trans (metric : string) a b c :
  Analytics.top_products_order metric a b = true ->
  Analytics.top_products_order metric b c = true ->
  Analytics.top_products_order metric a c = true.
Proof.
  unfold Analytics.top_products_order.
  destruct (String.eqb metric "revenue").
  - intros H1 H2. eapply Qle_bool_trans; eassumption.
  - destruct (String.eqb metric "quantity");
      intros H1 H2; eapply Zleb_trans; eassumption.
Qed.

Lemma firstn_length_le {A} (n : nat) (l : list A) :
  (length (firstn n l) <= n)%nat.
Proof.
  revert n. induction l as [| x l IH]; intros [| n]; simpl; try lia.
  specialize (IH n). lia.
Qed.

(* ------------------------------------------------------------------ *)
(** ** Top products                                                    *)
(* ------------------------------------------------------------------ *)

(** C7.  [get_top_products] with [limit = N] answers for every
    non-negative [N], and every answer has at most [N] rows, ordered so
    that the requested metric never increases from one row to a later
    one: revenue for ["revenue"], quantity for ["quantity"], and the
    frequency (the number of selected sales of the product) for
    ["frequency"] and for any other metric value. *)
Theorem C7_top_products_limit_and_order
  (db : ledger) (start_date end_date : date) (metric : string) (N : Z) :
  ((0 <= N)%Z ->
   exists rows,
     Analytics.get_top_products db start_date end_date metric N = Ok rows)
  /\
  (forall rows,
     Analytics.get_top_products db start_date end_date metric N = Ok rows ->
     (Analytics.len rows <= N)%Z
     /\ (metric = "revenue"%string ->
         StronglySorted
           (fun a b => (Analytics.TopProductRow.revenue b
                        <= Analytics.TopProductRow.revenue a)%Q) rows)
     /\ (metric = "quantity"%string ->
         StronglySorted
           (fun a b => (Analytics.TopProductRow.quantity b
                        <= Analytics.TopProductRow.quantity a)%Z) rows)
     /\ (metric <> "revenue"%string -> metric <> "quantity"%string ->
         StronglySorted
           (fun a b => (Analytics.TopProductRow.frequency b
                        <= Analytics.TopProductRow.frequency a)%Z) rows)
     /\ (forall r, In r rows ->
         Analytics.TopProductRow.frequency r
         = Analytics.len
             (List.filter
                (fun s =>
                   bool_decide
                     ((Sale.product_name s, Sale.product_category s)
                      = (Analytics.TopProductRow.product_name r,
                         Analytics.TopProductRow.product_category r)))
                (List.filter (Analytics.in_range start_date end_date) db)))).
Proof.
  unfold Analytics.get_top_products. split.
  - intros HN. destruct (N <? 0)%Z eqn:E; [apply Z.ltb_lt in E; lia |].
    eexists. reflexivity.
  - intros rows H.
    destruct (N <? 0)%Z eqn:E; [discriminate H |].
    apply Z.ltb_ge in E. inversion H as [Hrows]. clear H. subst rows.
    set (grouped := List.map Analytics.top_product_row _) in *.
    pose proof (order_by_StronglySorted
                  (Analytics.top_products_order metric)
                  (top_products_order_total metric)
                  (top_products_order_trans metric) grouped) as Hsorted.
    apply (StronglySorted_firstn _ (Z.to_nat N)) in Hsorted.
    fold (Sql.limit N (Sql.order_by (Analytics.top_products_order metric) grouped))
      in Hsorted.
    repeat split.
    + unfold Analytics.len, Sql.limit.
      pose proof (firstn_length_le (Z.to_nat N)
                    (Sql.order_by (Analytics.top_products_order metric) grouped)).
      lia.
    + intros ->. unfold Analytics.top_products_order in Hsorted. simpl in Hsorted.
      eapply StronglySorted_impl; [| exact Hsorted].
      intros a b Hab. apply Qle_bool_iff, Hab.
    + intros ->. unfold Analytics.top_products_order in Hsorted. simpl in Hsorted.
      eapply StronglySorted_impl; [| exact Hsorted].
      intros a b Hab. apply Z.leb_le, Hab.
    + intros Hr Hq. unfold Analytics.top_products_order in *.
      apply String.eqb_neq in Hr, Hq. rewrite Hr, Hq in *.
      eapply StronglySorted_impl; [| exact Hsorted].
      intros a b Hab. apply Z.leb_le, Hab.
    + intros r Hr. unfold Sql.limit in Hr. apply In_firstn in Hr.
      apply order_by_In in Hr. unfold grouped in Hr.
      apply in_map_iff in Hr. destruct Hr as [[[name cat] g] [<- Hg]].
      apply group_by_In in Hg. destruct Hg as [_ ->].
      reflexivity.
Qed.

Lemma C7_top_products_witness :
  exists rows,
    Analytics.get_top_products Sample.db Sample.jan_1 Sample.feb_28
      "revenue" 2 = Ok rows
    /\ (Analytics.len rows <= 2)%Z
    /\ StronglySorted
         (fun a b => (Analytics.TopProductRow.revenue b
                      <= Analytics.TopProductRow.revenue a)%Q) rows.
Proof.
  destruct (C7_top_products_limit_and_order
              Sample.db Sample.jan_1 Sample.feb_28 "revenue" 2)
    as [Htotal Hrows].
  destruct (Htotal ltac:(discriminate)) as [rows Hok].
  exists rows. split; [exact Hok |].
  destruct (Hrows rows Hok) as (Hlen & Hrev & _).
  split; [exact Hlen | apply Hrev; reflexivity].
Defined.

Example top_products_sample :
  option_map (List.map Analytics.TopProductRow.product_name)
    (match Analytics.get_top_products Sample.db Sample.jan_1 Sample.feb_28
             "revenue" 2 with
     | Ok rows => Some rows
     | Err _ => None
     end)
  = Some ["Vitamina C"; "Amoxicilina"]%string.
Proof. vm_compute. reflexivity. Qed.

Lemma C4_zero_baseline_witness :
  (Analytics.GrowthRate.growth_rate_pct
     (Analytics.calculate_growth_rate [Sample.sale_c]
        Sample.jan_1 Sample.feb_28) == 0)%Q
  /\ Analytics.Change.direction
       (Analytics.Comparison.revenue
          (Analytics.compare_periods
             (Sample.summary_of 1000 10 100) (Sample.summary_of 0 0 0)))
     = "neutral"%string
  /\ Analytics.Change.change_pct
       (Analytics.Comparison.transactions
          (Analytics.compare_periods
             (Sample.summary_of 1000 10 100) (Sample.summary_of 0 0 0)))
     = 0%Q
  /\ Analytics.Change.change_pct
       (Analytics.Comparison.avg_order_value
          (Analytics.compare_periods
             (Sample.summary_of 1000 10 100) (Sample.summary_of 0 0 0)))
     = 0%Q.
Proof.
  destruct (C4_zero_baseline_is_no_change [Sample.sale_c]
              Sample.jan_1 Sample.feb_28
              (Sample.summary_of 1000 10 100) (Sample.summary_of 0 0 0))
    as (Hgrowth & Hrev & Htx & Havg).
  split; [apply Hgrowth; vm_compute; reflexivity |].
  split; [apply Hrev; vm_compute; reflexivity |].
  split; [apply Htx; vm_compute; reflexivity |].
  apply Havg; vm_compute; reflexivity.
Defined.

(** The second half of that witness's range did sell: 300 against a first
    half of 0, and the reported growth is still 0. *)
Example growth_from_zero_sample :
  let g := Analytics.calculate_growth_rate [Sample.sale_c]
             Sample.jan_1 Sample.feb_28 in
  Analytics.GrowthRate.first_half_revenue g = 0%Q
  /\ Analytics.GrowthRate.second_half_revenue g = 300%Q
  /\ (Analytics.GrowthRate.growth_rate_pct g == 0)%Q.
Proof. vm_compute. repeat split; reflexivity. Qed.

(* ------------------------------------------------------------------ *)
(** ** [MathUtils]                                                     *)
(* ------------------------------------------------------------------ *)

(** C10.  [MathUtils.calculate_percentage_change] follows the opposite
    zero-baseline convention from [compare_periods]: for [old_value = 0]
    it returns 100 when [new_value > 0] and 0 when [new_value <= 0],
    where [compare_periods]' [calc_change] reports 0 for the same
    baseline whatever the new value. *)
Theorem C10_percentage_change_from_zero (old_value new_value : Q) :
  (old_value == 0)%Q ->
  ((0 < new_value)%Q ->
   MathUtils.calculate_percentage_change old_value new_value = 100%Q)
  /\ ((new_value <= 0)%Q ->
      MathUtils.calculate_percentage_change old_value new_value = 0%Q)
  /\ Analytics.Change.change_pct (Analytics.calc_change new_value old_value)
     = 0%Q.
Proof.
  intros Hold. unfold MathUtils.calculate_percentage_change.
  rewrite (Qeq_eq_bool _ _ Hold).
  rewrite calc_change_zero_baseline by exact Hold.
  repeat split.
  - intros H. apply Qltb_lt in H. rewrite H. reflexivity.
  - intros H. apply Qltb_ge in H. rewrite H. reflexivity.
Qed.

Lemma C10_percentage_change_witness :
  MathUtils.calculate_percentage_change 0 250 = 100%Q
  /\ MathUtils.calculate_percentage_change 0 (-3) = 0%Q
  /\ Analytics.Change.change_pct (Analytics.calc_change 250 0) = 0%Q.
Proof.
  destruct (C10_percentage_change_from_zero 0 250 ltac:(reflexivity))
    as (Hpos & _ & Hcmp).
  destruct (C10_percentage_change_from_zero 0 (-3) ltac:(reflexivity))
    as (_ & Hneg & _).
  split; [apply Hpos; reflexivity |].
  split; [apply Hneg; discriminate | exact Hcmp].
Defined.

(* ------------------------------------------------------------------ *)
(** ** Soft-deleted rows                                               *)
(* ------------------------------------------------------------------ *)

Lemma filter_through {A} (p q : A -> bool) (l : list A) :
  (forall x, p x = true -> q x = true) ->
  List.filter p l = List.filter p (List.filter q l).
Proof.
  intros Hpq. induction l as [| x l IH]; simpl; [reflexivity |].
  destruct (p x) eqn:Hp.
  - rewrite (Hpq x Hp). simpl. rewrite Hp. f_equal. exact IH.
  - destruct (q x); simpl; [rewrite Hp |]; exact IH.
Qed.

(** A query whose filter demands [is_active] sees two ledgers alike when
    their active rows are the same. *)
Lemma filter_agree (p : Sale.t -> bool) (db db' : ledger) :
  List.filter Sale.is_active db = List.filter Sale.is_active db' ->
  (forall x, p x = true -> Sale.is_active x = true) ->
  List.filter p db = List.filter p db'.
Proof.
  intros H Hp.
  rewrite (filter_through p Sale.is_active db Hp).
  rewrite (filter_through p Sale.is_active db' Hp).
  rewrite H. reflexivity.
Qed.

Ltac demands_active :=
  let x := fresh "x" in
  let Hx := fresh "Hx" in
  intros x Hx; unfold Analytics.in_range in Hx;
  destruct (Sale.is_active x) eqn:?; [reflexivity |];
  change (Bool.eqb false true) with false in Hx;
  rewrite ?andb_false_r, ?andb_false_l in Hx; discriminate Hx.

Ltac same_active_rows H :=
  repeat match goal with
         | |- context [List.filter ?p ?db] =>
             lazymatch type of H with
             | List.filter _ db = _ =>
                 rewrite (filter_agree p _ _ H) by demands_active
             end
         end.

Lemma find_filter {A} (p : A -> bool) (l : list A) :
  List.find p l = List.head (List.filter p l).
Proof.
  induction l as [| x l IH]; simpl; [reflexivity |].
  destruct (p x); [reflexivity | exact IH].
Qed.

Lemma In_skipn {A} (x : A) (n : nat) (l : list A) :
  In x (skipn n l) -> In x l.
Proof.
  revert n. induction l as [| y l IH]; intros [| n]; simpl; try tauto.
  intros H. right. eapply IH. exact H.
Qed.

Lemma In_filter_if {A} (c : bool) (p : A -> bool) (l : list A) (x : A) :
  In x (if c then List.filter p l else l) -> In x l.
Proof.
  destruct c; [| tauto]. intros H. apply List.filter_In in H. tauto.
Qed.

(** Whatever [get_sales] lists is an active row of the ledger. *)
Lemma get_sales_lists_active
  (db : ledger) (skip limit : Z) (product_name category pharmacy : option string)
  (start_date end_date : option date) (resp : SalesApi.SalesResponse.t) :
  SalesApi.get_sales db skip limit product_name category pharmacy
    start_date end_date = Ok resp ->
  forall s, In s (SalesApi.SalesResponse.sales resp) ->
            In s db /\ Sale.is_active s = true.
Proof.
  unfold SalesApi.get_sales. intros H s Hs.
  destruct (skip <? 0)%Z; [discriminate H |].
  destruct (1000 <? limit)%Z; [discriminate H |].
  destruct (limit <? 0)%Z; [discriminate H |].
  destruct (limit =? 0)%Z; [discriminate H |].
  inversion H; subst resp; clear H. simpl in Hs.
  unfold Sql.limit, Sql.offset in Hs.
  apply In_firstn, In_skipn, order_by_In in Hs.
  assert (Hdates : forall (d : option date) (f : date -> Sale.t -> bool) l,
             In s (match d with
                   | Some d0 => List.filter (f d0) l
                   | None => l
                   end) -> In s l).
  { intros [d |] f l Hin; [| exact Hin].
    apply List.filter_In in Hin. tauto. }
  apply (Hdates end_date
           (fun d s0 => dt_leb (Sale.sale_date s0) (midnight d))) in Hs.
  apply (Hdates start_date
           (fun d s0 => dt_leb (midnight d) (Sale.sale_date s0))) in Hs.
  do 3 apply In_filter_if in Hs.
  apply List.filter_In in Hs. destruct Hs as [Hin Hact].
  split; [exact Hin |].
  destruct (Sale.is_active s); [reflexivity | discriminate Hact].
Qed.

(** C1.  Soft-deleted rows never contribute.  Two ledgers with the same
    active rows (for instance a ledger and the same ledger with its
    soft-deleted rows removed) give the same performance summary, sales
    performance, market share, top products, customer analysis, revenue
    analysis, growth rate, seasonality, sales trends and average order
    value for every date range and parameter, and the same sale listing
    and sale lookup; and every sale a listing returns is an active row. *)
Theorem C1_soft_deleted_rows_are_excluded (db db' : ledger) :
  List.filter Sale.is_active db = List.filter Sale.is_active db' ->
  (forall s e,
     Analytics.get_performance_summary db s e
     = Analytics.get_performance_summary db' s e)
  /\ (forall s e period,
        Analytics.get_sales_performance db s e period
        = Analytics.get_sales_performance db' s e period)
  /\ (forall s e group_by,
        Analytics.get_market_share db s e group_by
        = Analytics.get_market_share db' s e group_by)
  /\ (forall s e metric limit,
        Analytics.get_top_products db s e metric limit
        = Analytics.get_top_products db' s e metric limit)
  /\ (forall s e,
        Analytics.get_customer_analysis db s e
        = Analytics.get_customer_analysis db' s e)
  /\ (forall s e group_by,
        Analytics.get_revenue_analysis db s e group_by
        = Analytics.get_revenue_analysis db' s e group_by)
  /\ (forall s e,
        Analytics.calculate_growth_rate db s e
        = Analytics.calculate_growth_rate db' s e)
  /\ (forall s e,
        Analytics.get_seasonality_analysis db s e
        = Analytics.get_seasonality_analysis db' s e)
  /\ (forall s e category,
        Analytics.get_sales_trends db s e category
        = Analytics.get_sales_trends db' s e category)
  /\ (forall s e,
        Analytics.get_average_order_value db s e
        = Analytics.get_average_order_value db' s e)
  /\ (forall skip limit product_name category pharmacy s e,
        SalesApi.get_sales db skip limit product_name category pharmacy s e
        = SalesApi.get_sales db' skip limit product_name category pharmacy s e)
  /\ (forall sale_id, SalesApi.get_sale db sale_id = SalesApi.get_sale db' sale_id)
  /\ (forall skip limit product_name category pharmacy s e resp,
        SalesApi.get_sales db skip limit product_name category pharmacy s e
        = Ok resp ->
        Forall (fun x => Sale.is_active x = true)
               (SalesApi.SalesResponse.sales resp)).
Proof.
  intros H.
  repeat match goal with |- _ /\ _ => split end.
  - intros s e. unfold Analytics.get_performance_summary.
    same_active_rows H. reflexivity.
  - intros s e period.
    unfold Analytics.get_sales_performance, Analytics.performance_query.
    same_active_rows H. reflexivity.
  - intros s e group_by.
    unfold Analytics.get_market_share, Analytics.market_share_query.
    same_active_rows H. reflexivity.
  - intros s e metric limit. unfold Analytics.get_top_products.
    same_active_rows H. reflexivity.
  - intros s e.
    unfold Analytics.get_customer_analysis, Analytics.customers_query.
    same_active_rows H. reflexivity.
  - intros s e group_by. unfold Analytics.get_revenue_analysis.
    same_active_rows H. reflexivity.
  - intros s e.
    unfold Analytics.calculate_growth_rate, Analytics.first_half,
      Analytics.second_half.
    same_active_rows H. reflexivity.
  - intros s e. unfold Analytics.get_seasonality_analysis.
    same_active_rows H. reflexivity.
  - intros s e category. unfold Analytics.get_sales_trends.
    same_active_rows H. reflexivity.
  - intros s e. unfold Analytics.get_average_order_value.
    same_active_rows H. reflexivity.
  - intros skip limit product_name category pharmacy s e.
    unfold SalesApi.get_sales.
    same_active_rows H. reflexivity.
  - intros sale_id. unfold SalesApi.get_sale, SalesApi.find_active.
    rewrite !find_filter.
    same_active_rows H. reflexivity.
  - intros skip limit product_name category pharmacy s e resp Hresp.
    apply List.Forall_forall. intros x Hx.
    eapply get_sales_lists_active; eassumption.
Qed.

Lemma C1_soft_deleted_witness :
  Analytics.get_performance_summary Sample.db Sample.jan_1 Sample.feb_28
  = Analytics.get_performance_summary Sample.db_without_deleted
      Sample.jan_1 Sample.feb_28
  /\ Analytics.get_market_share Sample.db Sample.jan_1 Sample.feb_28 "category"
     = Analytics.get_market_share Sample.db_without_deleted
         Sample.jan_1 Sample.feb_28 "category"
  /\ Analytics.get_top_products Sample.db Sample.jan_1 Sample.feb_28 "revenue" 10
     = Analytics.get_top_products Sample.db_without_deleted
         Sample.jan_1 Sample.feb_28 "revenue" 10.
Proof.
  destruct (C1_soft_deleted_rows_are_excluded
              Sample.db Sample.db_without_deleted eq_refl)
    as (Hsummary & _ & Hshare & Htop & _).
  split; [apply Hsummary |]. split; [apply Hshare | apply Htop].
Defined.

(** The soft-deleted sale of revenue 1000 is in range and is not counted:
    the three active sales add up to 600 over three transactions. *)
Example soft_deleted_sale_not_counted :
  Analytics.in_range Sample.jan_1 Sample.feb_28 Sample.sale_d = false
  /\ dt_leb (midnight Sample.jan_1) (Sale.sale_date Sample.sale_d) = true
  /\ dt_leb (Sale.sale_date Sample.sale_d) (midnight Sample.feb_28) = true
  /\ Analytics.get_performance_summary Sample.db Sample.jan_1 Sample.feb_28
       !! "total_revenue"%string = Some 600%Q
  /\ Analytics.get_performance_summary Sample.db Sample.jan_1 Sample.feb_28
       !! "total_transactions"%string = Some 3%Q.
Proof. vm_compute. repeat split; reflexivity. Qed.

(** The spec's scenario: January holds sales A and B, February sale C. *)
Example sales_performance_by_month :
  List.map
    (fun r => (Analytics.PerformanceRow.period r,
               Analytics.PerformanceRow.revenue r,
               Analytics.PerformanceRow.transactions r))
    (Analytics.get_sales_performance Sample.db Sample.jan_1 Sample.feb_28 "month")
  = [(mkDate 2024 1 1, 300%Q, 2%Z); (mkDate 2024 2 1, 300%Q, 1%Z)].
Proof. vm_compute. reflexivity. Qed.

(* ------------------------------------------------------------------ *)
(** ** Updating a sale                                                 *)
(* ------------------------------------------------------------------ *)

Lemma find_active_Some (db : ledger) (sale_id : Z) (sale : Sale.t) :
  SalesApi.find_active db sale_id = Some sale ->
  In sale db /\ Sale.id sale = sale_id /\ Sale.is_active sale = true.
Proof.
  unfold SalesApi.find_active. intros H.
  apply List.find_some in H. destruct H as [Hin H].
  apply andb_prop in H. destruct H as [Hid Hact].
  apply Z.eqb_eq in Hid.
  destruct (Sale.is_active sale); [auto | discriminate Hact].
Qed.

(** The row written back is the row a later lookup finds. *)
Lemma find_active_store (db : ledger) (sale_id : Z) (sale new : Sale.t) :
  SalesApi.find_active db sale_id = Some sale ->
  Sale.id new = sale_id ->
  Sale.is_active new = true ->
  SalesApi.find_active (SalesApi.store db sale_id new) sale_id = Some new.
Proof.
  unfold SalesApi.find_active. intros Hfind Hid Hact.
  induction db as [| s db IH]; simpl in *; [discriminate Hfind |].
  destruct ((Sale.id s =? sale_id)%Z && Bool.eqb (Sale.is_active s) true) eqn:E.
  - simpl. rewrite Hid, Z.eqb_refl, Hact. reflexivity.
  - simpl. rewrite E. apply IH. exact Hfind.
Qed.

(** C6.  Updating an existing active sale.  The update answers whenever
    the request nulls no required column.  In its answer the stored
    [total_price] is [quantity * unit_price - discount] over the
    post-update values when the request carries [quantity], [unit_price]
    or [discount], and is the old [total_price] when it carries none of
    them; every updatable column holds the supplied value when one was
    supplied and its old value otherwise; [updated_at] is the current
    time; no other column changes; and the row written to the ledger is
    the row returned. *)
Theorem C6_update_sale_total_price
  (db : ledger) (now : datetime) (sale_id : Z) (u : SaleUpdate.t)
  (sale : Sale.t) :
  SalesApi.find_active db sale_id = Some sale ->
  (SaleUpdate.keeps_required u ->
   exists db' sale', SalesApi.update_sale db now sale_id u = Ok (db', sale'))
  /\
  (forall db' sale',
     SalesApi.update_sale db now sale_id u = Ok (db', sale') ->
     (SalesApi.recalculates u = true ->
      Sale.total_price sale'
      = (inject_Z (Sale.quantity sale') * Sale.unit_price sale'
         - or0 (Sale.discount sale'))%Q)
     /\ (SalesApi.recalculates u = false ->
         Sale.total_price sale' = Sale.total_price sale)
     /\ Some (Sale.quantity sale')
        = SalesApi.setattr (SaleUpdate.quantity u) (Some (Sale.quantity sale))
     /\ Some (Sale.unit_price sale')
        = SalesApi.setattr (SaleUpdate.unit_price u)
            (Some (Sale.unit_price sale))
     /\ Sale.discount sale'
        = SalesApi.setattr (SaleUpdate.discount u) (Sale.discount sale)
     /\ Some (Sale.product_name sale')
        = SalesApi.setattr (SaleUpdate.product_name u)
            (Some (Sale.product_name sale))
     /\ Some (Sale.product_category sale')
        = SalesApi.setattr (SaleUpdate.product_category u)
            (Some (Sale.product_category sale))
     /\ Sale.pharmacy_name sale'
        = SalesApi.setattr (SaleUpdate.pharmacy_name u)
            (Sale.pharmacy_name sale)
     /\ Sale.pharmacy_location sale'
        = SalesApi.setattr (SaleUpdate.pharmacy_location u)
            (Sale.pharmacy_location sale)
     /\ Sale.customer_type sale'
        = SalesApi.setattr (SaleUpdate.customer_type u)
            (Sale.customer_type sale)
     /\ Sale.payment_method sale'
        = SalesApi.setattr (SaleUpdate.payment_method u)
            (Sale.payment_method sale)
     /\ Sale.notes sale'
        = SalesApi.setattr (SaleUpdate.notes u) (Sale.notes sale)
     /\ Sale.updated_at sale' = now
     /\ (Sale.id sale' = Sale.id sale
         /\ Sale.product_code sale' = Sale.product_code sale
         /\ Sale.sale_date sale' = Sale.sale_date sale
         /\ Sale.campaign_id sale' = Sale.campaign_id sale
         /\ Sale.sales_rep sale' = Sale.sales_rep sale
         /\ Sale.is_active sale' = Sale.is_active sale
         /\ Sale.created_at sale' = Sale.created_at sale)
     /\ db' = SalesApi.store db sale_id sale'
     /\ SalesApi.find_active db' sale_id = Some sale').
Proof.
  intros Hfind.
  destruct (find_active_Some _ _ _ Hfind) as (_ & Hid & Hact).
  unfold SalesApi.update_sale, SalesApi.recalculates. rewrite Hfind.
  destruct u as [pn pc q p d ph pl ct pm nt]. simpl.
  split.
  - intros (Hpn & Hpc & Hq & Hp). simpl in *.
    destruct pn as [[pn |] |]; try congruence;
      destruct pc as [[pc |] |]; try congruence;
      destruct q as [[q |] |]; try congruence;
      destruct p as [[p |] |]; try congruence;
      destruct d as [d |]; simpl; eexists; eexists; reflexivity.
  - intros db' sale' H.
    destruct q as [[q |] |]; simpl in H; try discriminate H;
      destruct p as [[p |] |]; simpl in H; try discriminate H;
      destruct d as [d |]; simpl in H;
      destruct pn as [[pn |] |]; simpl in H; try discriminate H;
      destruct pc as [[pc |] |]; simpl in H; try discriminate H;
      inversion H; subst sale'; clear H; simpl;
      (repeat match goal with |- _ /\ _ => split end);
      try reflexivity; try discriminate;
      try (intros _; reflexivity);
      apply (find_active_store _ _ _ _ Hfind); simpl; assumption.
Qed.

Lemma C6_update_sale_witness :
  exists db' sale',
    SalesApi.update_sale Sample.db Sample.now 1 Sample.new_quantity
    = Ok (db', sale')
    /\ Sale.total_price sale'
       = (inject_Z (Sale.quantity sale') * Sale.unit_price sale'
          - or0 (Sale.discount sale'))%Q
    /\ SalesApi.find_active db' 1 = Some sale'.
Proof.
  destruct (C6_update_sale_total_price
              Sample.db Sample.now 1 Sample.new_quantity Sample.sale_a
              ltac:(vm_compute; reflexivity))
    as [Hanswers Hanswer].
  destruct Hanswers as (db' & sale' & Hok).
  { repeat split; discriminate. }
  exists db', sale'. split; [exact Hok |].
  destruct (Hanswer db' sale' Hok)
    as (Hnew & _ & _ & _ & _ & _ & _ & _ & _ & _ & _ & _ & _ & _ & _ & Hstored).
  split; [apply Hnew; reflexivity | exact Hstored].
Defined.

(** Sale A was 1 x 100.  Five units make its total 500; a request that
    only sets the notes leaves the total at 100. *)
Example update_quantity_sample :
  match SalesApi.update_sale Sample.db Sample.now 1 Sample.new_quantity with
  | Ok (_, sale') =>
      Sale.quantity sale' = 5%Z
      /\ (Sale.total_price sale' == 500)%Q
      /\ Sale.updated_at sale' = Sample.now
  | Err _ => False
  end.
Proof. vm_compute. repeat split; reflexivity. Qed.

Example update_notes_sample :
  match SalesApi.update_sale Sample.db Sample.now 1 Sample.notes_only with
  | Ok (_, sale') =>
      Sale.total_price sale' = Sale.total_price Sample.sale_a
      /\ Sale.notes sale' = Some "entregue"%string
      /\ Sale.quantity sale' = 1%Z
  | Err _ => False
  end.
Proof. vm_compute. repeat split; reflexivity. Qed.

(** A request that sets [quantity] to [null] is refused while the total
    is recomputed, and a soft-deleted sale cannot be updated. *)
Example update_null_quantity_sample :
  SalesApi.update_sale Sample.db Sample.now 1
    (SaleUpdate.mk None None (Some None) None None None None None None None)
  = Err TypeError.
Proof. reflexivity. Qed.

Example update_deleted_sample :
  SalesApi.update_sale Sample.db Sample.now 4 Sample.new_quantity = Err HTTP404.
Proof. reflexivity. Qed.

(* ------------------------------------------------------------------ *)
(** ** Sums                                                            *)
(* ------------------------------------------------------------------ *)

Lemma fold_left_Qplus_acc (xs : list Q) (a : Q) :
  (fold_left Qplus xs a == a + fold_left Qplus xs 0)%Q.
Proof.
  revert a. induction xs as [| x xs IH]; intros a; simpl.
  - lra.
  - rewrite (IH (a + x)%Q), (IH (0 + x)%Q). lra.
Qed.

Lemma Py_sum_cons (x : Q) (xs : list Q) :
  (Py.sum (x :: xs) == x + Py.sum xs)%Q.
Proof.
  unfold Py.sum. simpl. rewrite fold_left_Qplus_acc. lra.
Qed.






Lemma sum_scaled (xs : list Q) (c : Q) :
  (Py.sum (List.map (fun x => x * c) xs) == Py.sum xs * c)%Q.
Proof.
  induction xs as [| x xs IH]; simpl List.map.
  - unfold Py.sum. simpl. lra.
  - rewrite !Py_sum_cons, IH. lra.
Qed.


(* ------------------------------------------------------------------ *)
(** ** Market share                                                    *)
(* ------------------------------------------------------------------ *)








Example market_share_sample :
  List.map
    (fun r => (Analytics.MarketShareRow.segment r,
               Qred (Analytics.MarketShareRow.market_share_pct r)))
    (Analytics.get_market_share Sample.db Sample.jan_1 Sample.feb_28 "category")
  = [("Vitaminas", 50); ("Antibioticos", 3333 # 100);
     ("Analgesicos", 1667 # 100)]%string%Q.
Proof. vm_compute. reflexivity. Qed.

(* ------------------------------------------------------------------ *)
(** ** Sales performance by period                                     *)
(* ------------------------------------------------------------------ *)

Lemma date_leb_total (a b : date) : date_leb a b = true \/ date_leb b a = true.
Proof. unfold date_leb. apply Zleb_total. Qed.

Lemma date_leb_trans (a b c : date) :
  date_leb a b = true -> date_leb b c = true -> date_leb a c = true.
Proof. unfold date_leb. apply Zleb_trans. Qed.

Lemma performance_query_periods
  (date_group : Sale.t -> date) (db : ledger) (s e : date) :
  List.map Analytics.PerformanceRow.period
    (Analytics.performance_query date_group db s e)
  = List.map fst
      (Sql.order_by (fun a b => date_leb (fst a) (fst b))
         (Sql.group_by date_group
            (List.filter (Analytics.in_range s e) db))).
Proof.
  unfold Analytics.performance_query. rewrite List.map_map. reflexivity.
Qed.

(** The rows of the grouped query: ascending by bucket, one row per
    bucket, each row aggregating exactly the selected sales of its
    bucket, and every selected sale falling in some row. *)
Lemma performance_query_grouped
  (date_group : Sale.t -> date) (db : ledger) (s e : date) :
  let rows := Analytics.performance_query date_group db s e in
  let selected := List.filter (Analytics.in_range s e) db in
  StronglySorted
    (fun a b => (days_from_civil (Analytics.PerformanceRow.period a)
                 <= days_from_civil (Analytics.PerformanceRow.period b))%Z)
    rows
  /\ List.NoDup (List.map Analytics.PerformanceRow.period rows)
  /\ (forall r, In r rows ->
        let bucket :=
          List.filter
            (fun x => bool_decide
                        (date_group x = Analytics.PerformanceRow.period r))
            selected in
        bucket <> []
        /\ Analytics.PerformanceRow.revenue r
           = or0 (Analytics.revenue_of bucket)
        /\ Analytics.PerformanceRow.quantity r
           = Analytics.or0Z (Analytics.quantity_of bucket)
        /\ Analytics.PerformanceRow.transactions r = Sql.count bucket
        /\ Analytics.PerformanceRow.avg_order_value r
           = or0 (Analytics.avg_price_of bucket))
  /\ (forall x, In x selected ->
        In (date_group x) (List.map Analytics.PerformanceRow.period rows)).
Proof.
  intros rows selected.
  set (leb := fun a b : date * list Sale.t => date_leb (fst a) (fst b)).
  set (groups := Sql.group_by date_group selected).
  assert (Hperm : Permutation (Sql.order_by leb groups) groups)
    by apply order_by_perm.
  assert (Hperiods :
            List.map Analytics.PerformanceRow.period rows
            = List.map fst (Sql.order_by leb groups))
    by apply performance_query_periods.
  repeat match goal with |- _ /\ _ => split end.
  - unfold rows, Analytics.performance_query. fold selected groups leb.
    apply StronglySorted_map
      with (R := fun a b : Analytics.PerformanceRow.t =>
                   (days_from_civil (Analytics.PerformanceRow.period a)
                    <= days_from_civil (Analytics.PerformanceRow.period b))%Z).
    simpl.
    eapply StronglySorted_impl;
      [| apply (order_by_StronglySorted leb)].
    + intros a b Hab. unfold leb, date_leb in Hab. apply Z.leb_le, Hab.
    + intros a b. apply date_leb_total.
    + intros a b c. apply date_leb_trans.
  - rewrite Hperiods.
    eapply Stdlib.Sorting.Permutation.Permutation_NoDup.
    + symmetry. apply Permutation_map. exact Hperm.
    + apply group_by_NoDup.
  - intros r Hr bucket.
    unfold rows, Analytics.performance_query in Hr. fold selected groups leb in Hr.
    apply in_map_iff in Hr. destruct Hr as [[k g] [<- Hg]].
    apply order_by_In in Hg. simpl in *.
    pose proof (group_by_nonempty _ _ _ _ Hg) as Hne.
    apply group_by_In in Hg. destruct Hg as [_ ->].
    subst bucket. simpl. repeat split; try reflexivity. exact Hne.
  - intros x Hx. rewrite Hperiods.
    apply in_map_iff.
    exists (date_group x,
            List.filter (fun r' => bool_decide (date_group r' = date_group x))
              selected).
    split; [reflexivity |].
    apply order_by_In. apply group_by_complete. exact Hx.
Qed.

Lemma performance_date_group_spec (period : string) :
  period <> "quarter"%string ->
  Analytics.performance_date_group period = Spec.period_granularity period.
Proof.
  intros H. apply String.eqb_neq in H.
  unfold Analytics.performance_date_group, Spec.period_granularity.
  rewrite H.
  destruct (String.eqb period "day"); [reflexivity |].
  destruct (String.eqb period "week"); [reflexivity |].
  destruct (String.eqb period "month"); reflexivity.
Qed.

(** C3, as the code has it.  In [get_sales_performance] each period value
    in {day, week, month, year} selects date truncation at that
    granularity; every other value, ["quarter"] included, selects
    month-level truncation and raises nothing, so the result for
    ["quarter"] is the result for ["month"], and on every value but
    ["quarter"] the result is the one the five-value reading gives.  The
    rows are grouped by the truncated date (one row per bucket, holding
    the aggregates of exactly the selected sales of that bucket, every
    selected sale in some bucket) and are returned in ascending order of
    that date. *)
Theorem C3_sales_performance_periods
  (db : ledger) (start_date end_date : date) (period : string) :
  let date_group :=
    fun x => trunc (Analytics.performance_date_group period)
               (Sale.sale_date x) in
  let rows := Analytics.get_sales_performance db start_date end_date period in
  let selected := List.filter (Analytics.in_range start_date end_date) db in
  (Analytics.performance_date_group "day" = Day
   /\ Analytics.performance_date_group "week" = Week
   /\ Analytics.performance_date_group "month" = Month
   /\ Analytics.performance_date_group "year" = Year)
  /\ (period <> "day"%string -> period <> "week"%string ->
      period <> "month"%string -> period <> "year"%string ->
      Analytics.performance_date_group period = Month
      /\ rows = Analytics.get_sales_performance db start_date end_date "month")
  /\ (period <> "quarter"%string ->
      rows = Spec.sales_performance db start_date end_date period)
  /\ StronglySorted
       (fun a b => (days_from_civil (Analytics.PerformanceRow.period a)
                    <= days_from_civil (Analytics.PerformanceRow.period b))%Z)
       rows
  /\ List.NoDup (List.map Analytics.PerformanceRow.period rows)
  /\ (forall r, In r rows ->
        let bucket :=
          List.filter
            (fun x => bool_decide
                        (date_group x = Analytics.PerformanceRow.period r))
            selected in
        bucket <> []
        /\ Analytics.PerformanceRow.revenue r
           = or0 (Analytics.revenue_of bucket)
        /\ Analytics.PerformanceRow.quantity r
           = Analytics.or0Z (Analytics.quantity_of bucket)
        /\ Analytics.PerformanceRow.transactions r = Sql.count bucket
        /\ Analytics.PerformanceRow.avg_order_value r
           = or0 (Analytics.avg_price_of bucket))
  /\ (forall x, In x selected ->
        In (date_group x) (List.map Analytics.PerformanceRow.period rows)).
Proof.
  intros date_group rows selected.
  split; [repeat split |].
  split.
  { intros Hd Hw Hm Hy.
    assert (Hg : Analytics.performance_date_group period = Month).
    { unfold Analytics.performance_date_group.
      apply String.eqb_neq in Hd, Hw, Hm, Hy.
      rewrite Hd, Hw, Hm, Hy. reflexivity. }
    split; [exact Hg |].
    unfold rows, Analytics.get_sales_performance. rewrite Hg. reflexivity. }
  split.
  { intros Hq. unfold rows, Analytics.get_sales_performance,
      Spec.sales_performance.
    rewrite (performance_date_group_spec period Hq). reflexivity. }
  exact (performance_query_grouped date_group db start_date end_date).
Qed.

Lemma C3_sales_performance_witness :
  Analytics.performance_date_group "quarter" = Month
  /\ Analytics.get_sales_performance Sample.db Sample.jan_1 Sample.feb_28
       "quarter"
     = Analytics.get_sales_performance Sample.db Sample.jan_1 Sample.feb_28
         "month"
  /\ Analytics.get_sales_performance Sample.db Sample.jan_1 Sample.feb_28
       "week"
     = Spec.sales_performance Sample.db Sample.jan_1 Sample.feb_28 "week".
Proof.
  destruct (C3_sales_performance_periods
              Sample.db Sample.jan_1 Sample.feb_28 "quarter")
    as (_ & Hfallback & _).
  destruct (C3_sales_performance_periods
              Sample.db Sample.jan_1 Sample.feb_28 "week")
    as (_ & _ & Hspec & _).
  pose proof (Hfallback
                ltac:(intros E; discriminate E) ltac:(intros E; discriminate E)
                ltac:(intros E; discriminate E) ltac:(intros E; discriminate E))
    as [Hmonth Hrows].
  split; [exact Hmonth |]. split; [exact Hrows |].
  apply Hspec. intros E; discriminate E.
Defined.

(** Sales A and B are of January 2024 and sale C of February 2024: one
    quarter.  Asked for quarters, the code answers with the two months. *)
Lemma C3_quarter_counterexample :
  Analytics.performance_date_group "quarter" <> Quarter
  /\ List.map Analytics.PerformanceRow.period
       (Analytics.get_sales_performance Sample.db Sample.jan_1 Sample.feb_28
          "quarter")
     = [mkDate 2024 1 1; mkDate 2024 2 1]
  /\ List.map Analytics.PerformanceRow.period
       (Spec.sales_performance Sample.db Sample.jan_1 Sample.feb_28 "quarter")
     = [mkDate 2024 1 1]
  /\ Analytics.get_sales_performance Sample.db Sample.jan_1 Sample.feb_28
       "quarter"
     <> Spec.sales_performance Sample.db Sample.jan_1 Sample.feb_28 "quarter".
Proof.
  split; [discriminate |].
  split; [vm_compute; reflexivity |].
  split; [vm_compute; reflexivity |].
  intros H.
  apply (f_equal (@length _)) in H. vm_compute in H. discriminate H.
Qed.

(* ------------------------------------------------------------------ *)
(** ** Percentiles                                                     *)
(* ------------------------------------------------------------------ *)

Section Interpolation.

(** A sorted array [s] of [n >= 1] numbers, and the value interpolated at
    a virtual index [v] as [Np.percentile1] does it. *)
Variable s : list Q.
Hypothesis s_sorted : StronglySorted (fun x y => Qle_bool x y = true) s.
Hypothesis s_nonempty : (1 <= length s)%nat.

Let interpolate (v : Q) : Q :=
  let previous := Z.to_nat (Qfloor v) in
  let lo := nth previous s 0%Q in
  let hi := nth (Nat.min (previous + 1) (length s - 1)) s 0%Q in
  (lo + (hi - lo) * (v - inject_Z (Qfloor v)))%Q.

Lemma nth_sorted (i j : nat) :
  (i <= j)%nat -> (j < length s)%nat -> (nth i s 0 <= nth j s 0)%Q.
Proof using s_sorted s_nonempty.
  intros Hij Hj.
  destruct (Nat.eq_dec i j) as [-> | Hne]; [apply Qle_refl |].
  apply Qle_bool_iff.
  apply (StronglySorted_nth _ s 0%Q s_sorted i j); lia.
Qed.

Lemma interpolate_bounds (v : Q) :
  (0 <= v)%Q -> (v <= inject_Z (Z.of_nat (length s) - 1))%Q ->
  let previous := Z.to_nat (Qfloor v) in
  (previous <= length s - 1)%nat
  /\ (nth previous s 0 <= interpolate v)%Q
  /\ (interpolate v <= nth (Nat.min (previous + 1) (length s - 1)) s 0)%Q.
Proof using s_sorted s_nonempty.
  intros H0 Hn previous.
  assert (Hf0 : (0 <= Qfloor v)%Z).
  { change 0%Z with (Qfloor 0). apply Qfloor_resp_le, H0. }
  assert (Hfn : (Qfloor v <= Z.of_nat (length s) - 1)%Z).
  { rewrite <- (Qfloor_Z (Z.of_nat (length s) - 1)).
    apply Qfloor_resp_le, Hn. }
  assert (Hp : (previous <= length s - 1)%nat) by (unfold previous; lia).
  split; [exact Hp |].
  pose proof (Qfloor_le v) as Hlo.
  pose proof (Qlt_floor v) as Hhi.
  rewrite inject_Z_plus in Hhi. change (inject_Z 1) with 1%Q in Hhi.
  assert (Hstep : (nth previous s 0
                   <= nth (Nat.min (previous + 1) (length s - 1)) s 0)%Q).
  { apply nth_sorted; lia. }
  unfold interpolate. fold previous.
  set (lo := nth previous s 0%Q) in *.
  set (hi := nth (Nat.min (previous + 1) (length s - 1)) s 0%Q) in *.
  set (gamma := (v - inject_Z (Qfloor v))%Q).
  assert (Hg0 : (0 <= gamma)%Q) by (unfold gamma; lra).
  assert (Hg1 : (gamma <= 1)%Q) by (unfold gamma; lra).
  assert (Hd : (0 <= hi - lo)%Q) by lra.
  assert (Hprod0 : (0 <= (hi - lo) * gamma)%Q)
    by (apply Qmult_le_0_compat; assumption).
  assert (Hprod1 : ((hi - lo) * gamma <= (hi - lo) * 1)%Q).
  { rewrite !(Qmult_comm (hi - lo)). apply Qmult_le_compat_r; assumption. }
  split; lra.
Qed.

(** The interpolated value does not decrease along the array. *)
Lemma interpolate_mono (v1 v2 : Q) :
  (0 <= v1)%Q -> (v1 <= v2)%Q ->
  (v2 <= inject_Z (Z.of_nat (length s) - 1))%Q ->
  (interpolate v1 <= interpolate v2)%Q.
Proof using s_sorted s_nonempty.
  intros H0 H12 Hn.
  assert (H02 : (0 <= v2)%Q) by lra.
  assert (H1n : (v1 <= inject_Z (Z.of_nat (length s) - 1))%Q) by lra.
  destruct (interpolate_bounds v1 H0 H1n) as (Hp1 & _ & Hup1).
  destruct (interpolate_bounds v2 H02 Hn) as (Hp2 & Hlow2 & _).
  assert (Hf0 : (0 <= Qfloor v1)%Z).
  { change 0%Z with (Qfloor 0). apply Qfloor_resp_le, H0. }
  pose proof (Qfloor_resp_le v1 v2 H12) as Hfl.
  destruct (Z.eq_dec (Qfloor v1) (Qfloor v2)) as [Heq | Hne].
  - unfold interpolate. rewrite <- Heq.
    set (previous := Z.to_nat (Qfloor v1)) in *.
    assert (Hstep : (nth previous s 0
                     <= nth (Nat.min (previous + 1) (length s - 1)) s 0)%Q).
    { apply nth_sorted; lia. }
    set (lo := nth previous s 0%Q) in *.
    set (hi := nth (Nat.min (previous + 1) (length s - 1)) s 0%Q) in *.
    assert (Hd : (0 <= hi - lo)%Q) by lra.
    assert (Hprod : ((hi - lo) * (v1 - inject_Z (Qfloor v1))
                     <= (hi - lo) * (v2 - inject_Z (Qfloor v1)))%Q).
    { rewrite !(Qmult_comm (hi - lo)).
      apply Qmult_le_compat_r; [lra | exact Hd]. }
    lra.
  - eapply Qle_trans; [exact Hup1 |].
    eapply Qle_trans; [| exact Hlow2].
    apply nth_sorted; lia.
Qed.

End Interpolation.

(** [np.percentile(a, q)] does not decrease with [q]. *)
Lemma percentile1_mono (a : list Q) (q1 q2 : Q) :
  a <> [] -> (0 <= q1)%Q -> (q1 <= q2)%Q -> (q2 <= 100)%Q ->
  (Np.percentile1 a q1 <= Np.percentile1 a q2)%Q.
Proof.
  intros Ha H0 H12 H100.
  assert (Hlen : (1 <= length a)%nat).
  { destruct a; [congruence | simpl; lia]. }
  unfold Np.percentile1. cbv zeta.
  rewrite <- (order_by_length Qle_bool a) in *.
  set (s := Sql.order_by Qle_bool a) in *.
  set (N := inject_Z (Z.of_nat (length s) - 1)).
  assert (HN : (0 <= N)%Q).
  { unfold N. change 0%Q with (inject_Z 0). rewrite <- Zle_Qle. lia. }
  change (q1 / 100)%Q with (q1 * (1 # 100))%Q.
  change (q2 / 100)%Q with (q2 * (1 # 100))%Q.
  assert (Hq1 : (0 <= q1 * (1 # 100))%Q) by lra.
  assert (Hq12 : (q1 * (1 # 100) <= q2 * (1 # 100))%Q) by lra.
  assert (Hq2 : (q2 * (1 # 100) <= 1)%Q) by lra.
  apply (interpolate_mono s).
  - apply order_by_StronglySorted.
    + apply Qle_bool_total.
    + apply Qle_bool_trans.
  - exact Hlen.
  - apply Qmult_le_0_compat; assumption.
  - apply Qmult_le_compat_r; assumption.
  - apply Qle_trans with (1 * N)%Q; [| rewrite Qmult_1_l; apply Qle_refl].
    apply Qmult_le_compat_r; assumption.
Qed.

(* ------------------------------------------------------------------ *)
(** ** Customer segments                                               *)
(* ------------------------------------------------------------------ *)

(** Two thresholds in order cut a list into three parts. *)
Lemma three_way_count (p1 p2 : Q) (revenues : list Q) :
  (p1 <= p2)%Q ->
  (length (List.filter (fun r => Qle_bool p2 r) revenues)
   + length (List.filter (fun r => Qle_bool p1 r && Qltb r p2) revenues)
   + length (List.filter (fun r => Qltb r p1) revenues)
   = length revenues)%nat.
Proof.
  intros H12. induction revenues as [| r revenues IH]; simpl; [reflexivity |].
  destruct (Qle_bool p2 r) eqn:E2; destruct (Qle_bool p1 r) eqn:E1;
    destruct (Qltb r p2) eqn:L2; destruct (Qltb r p1) eqn:L1;
    simpl; try lia; exfalso;
    repeat match goal with
           | H : Qle_bool _ _ = true |- _ => apply Qle_bool_iff in H
           | H : Qle_bool _ _ = false |- _ =>
               apply not_true_iff_false in H; rewrite Qle_bool_iff in H
           | H : Qltb _ _ = true |- _ => apply Qltb_lt in H
           | H : Qltb _ _ = false |- _ => apply Qltb_ge in H
           end;
    try lra;
    repeat match goal with
           | H : ~ (_ <= _)%Q |- _ => apply Qnot_le_lt in H
           end;
    lra.
Qed.

Lemma segments_of_total (revenues : list Q) (p33 p66 p90 : Q) :
  (p66 <= p90)%Q ->
  let seg := Analytics.segments_of revenues [p33; p66; p90] in
  (Analytics.Segments.high_value seg
   + Analytics.Segments.medium_value seg
   + Analytics.Segments.low_value seg
   = Analytics.len revenues)%Z.
Proof.
  intros H seg. unfold seg, Analytics.segments_of, Analytics.len. simpl.
  pose proof (three_way_count p66 p90 revenues H). lia.
Qed.

(** C9.  In [get_customer_analysis] the three segment counts partition
    the customer set: [high_value + medium_value + low_value =
    total_customers] for every ledger and range.  When there is a
    customer, [high_value] counts the pharmacies whose revenue is at
    least the 90th percentile, [medium_value] those from the 66th
    percentile up to but not including the 90th, [low_value] those below
    the 66th; the 66th percentile is never above the 90th; and the 33rd
    percentile, whatever its value, changes no segment count. *)
Theorem C9_customer_segments_partition
  (db : ledger) (start_date end_date : date) :
  let analysis := Analytics.get_customer_analysis db start_date end_date in
  let seg := Analytics.CustomerAnalysis.segments analysis in
  let revenues :=
    List.map Analytics.CustomerRow.total_revenue
      (Analytics.customers_query db start_date end_date) in
  let p66 := Np.percentile1 revenues 66 in
  let p90 := Np.percentile1 revenues 90 in
  (Analytics.Segments.high_value seg
   + Analytics.Segments.medium_value seg
   + Analytics.Segments.low_value seg
   = Analytics.CustomerAnalysis.total_customers analysis)%Z
  /\ (revenues <> [] ->
      (p66 <= p90)%Q
      /\ Analytics.Segments.high_value seg
         = Analytics.len (List.filter (fun r => Qle_bool p90 r) revenues)
      /\ Analytics.Segments.medium_value seg
         = Analytics.len
             (List.filter (fun r => Qle_bool p66 r && Qltb r p90) revenues)
      /\ Analytics.Segments.low_value seg
         = Analytics.len (List.filter (fun r => Qltb r p66) revenues)
      /\ forall p33, seg = Analytics.segments_of revenues [p33; p66; p90])
  /\ (forall p33 p33' rest,
        Analytics.segments_of revenues (p33 :: rest)
        = Analytics.segments_of revenues (p33' :: rest)).
Proof.
  intros analysis seg revenues p66 p90.
  assert (Hlen : Analytics.CustomerAnalysis.total_customers analysis
                 = Analytics.len revenues).
  { unfold analysis, Analytics.get_customer_analysis, revenues,
      Analytics.len. simpl. rewrite length_map. reflexivity. }
  assert (Hseg : revenues <> [] ->
                 forall p33, seg = Analytics.segments_of revenues [p33; p66; p90]).
  { intros Hne p33.
    unfold seg, analysis, Analytics.get_customer_analysis. simpl.
    fold revenues. destruct revenues as [| r rest] eqn:E; [congruence |].
    reflexivity. }
  assert (Hmono : revenues <> [] -> (p66 <= p90)%Q).
  { intros Hne. apply percentile1_mono; [exact Hne | | |]; discriminate. }
  split; [| split].
  - rewrite Hlen.
    destruct (list_eq_nil_dec revenues) as [Hnil | Hne].
    + unfold seg, analysis, Analytics.get_customer_analysis. simpl.
      fold revenues. rewrite Hnil. reflexivity.
    + rewrite (Hseg Hne 0%Q).
      apply segments_of_total. exact (Hmono Hne).
  - intros Hne. split; [exact (Hmono Hne) |].
    rewrite (Hseg Hne 0%Q). repeat split.
  - intros p33 p33' rest. reflexivity.
Qed.

Lemma C9_customer_segments_witness :
  let analysis :=
    Analytics.get_customer_analysis Sample.five_customers
      Sample.jan_1 Sample.feb_28 in
  let revenues :=
    List.map Analytics.CustomerRow.total_revenue
      (Analytics.customers_query Sample.five_customers
         Sample.jan_1 Sample.feb_28) in
  (Np.percentile1 revenues 66 <= Np.percentile1 revenues 90)%Q
  /\ Analytics.Segments.low_value (Analytics.CustomerAnalysis.segments analysis)
     = Analytics.len
         (List.filter (fun r => Qltb r (Np.percentile1 revenues 66)) revenues).
Proof.
  intros analysis revenues.
  destruct (C9_customer_segments_partition
              Sample.five_customers Sample.jan_1 Sample.feb_28)
    as (_ & Hsome & _).
  destruct Hsome as (Hmono & _ & _ & Hlow & _).
  - vm_compute. discriminate.
  - split; [exact Hmono | exact Hlow].
Defined.

(** The 66th and 90th percentiles of 100..500 are 364 and 460: one
    pharmacy is high value, one medium and three low. *)
Example customer_segments_sample :
  let analysis :=
    Analytics.get_customer_analysis Sample.five_customers
      Sample.jan_1 Sample.feb_28 in
  Analytics.CustomerAnalysis.segments analysis = Analytics.Segments.mk 1 1 3
  /\ Analytics.CustomerAnalysis.total_customers analysis = 5%Z
  /\ List.map Qred (Np.percentile [100; 200; 300; 400; 500]%Q [33; 66; 90]%Q)
     = [232; 364; 460]%Q.
Proof. vm_compute. repeat split; reflexivity. Qed.

(* ------------------------------------------------------------------ *)
(** ** Creating a sale                                                 *)
(* ------------------------------------------------------------------ *)

(** [create_sale] stores whatever [sale_date] the request carries. *)
Lemma post_sale_accepts (db : ledger) (now : datetime) (body : SaleCreate.t) :
  (0 < SaleCreate.quantity body)%Z ->
  (0 < SaleCreate.unit_price body)%Q ->
  existsb (fun s => String.eqb (Sale.product_code s)
                      (SaleCreate.product_code body)) db = false ->
  exists sale,
    SalesApi.post_sale db now body = Ok ((db ++ [sale])%list, sale)
    /\ Sale.sale_date sale = default now (SaleCreate.sale_date body)
    /\ Sale.total_price sale
       = (inject_Z (SaleCreate.quantity body) * SaleCreate.unit_price body
          - or0 (SaleCreate.discount body))%Q
    /\ Sale.is_active sale = true.
Proof.
  intros Hq Hp Hcode.
  unfold SalesApi.post_sale, SaleCreate.validate,
    SaleCreate.quantity_must_be_positive, SaleCreate.price_must_be_positive.
  assert (Eq : (SaleCreate.quantity body <=? 0)%Z = false)
    by (apply Z.leb_gt; exact Hq).
  assert (Ep : Qle_bool (SaleCreate.unit_price body) 0 = false).
  { apply not_true_iff_false. rewrite Qle_bool_iff. lra. }
  rewrite Eq, Ep. simpl.
  unfold SalesApi.create_sale, SalesApi.insert. simpl. rewrite Hcode. simpl.
  eexists. repeat split.
Qed.

(** C5 on the code.  A request dated 2025-03-01, received when the clock
    reads 2024-03-01, passes both validators of [SaleCreate] and is
    inserted by [create_sale] with its future [sale_date]. *)
Theorem C5_future_dated_sale_is_stored :
  exists db' sale,
    SalesApi.post_sale Sample.db Sample.now Sample.future_sale = Ok (db', sale)
    /\ In sale db'
    /\ Sale.sale_date sale = Sample.noon 2025 3 1
    /\ dt_ltb Sample.now (Sale.sale_date sale) = true.
Proof.
  destruct (post_sale_accepts Sample.db Sample.now Sample.future_sale)
    as (sale & Hok & Hdate & _); try reflexivity.
  exists (Sample.db ++ [sale])%list, sale.
  split; [exact Hok |].
  split; [apply in_or_app; right; left; reflexivity |].
  rewrite Hdate. split; reflexivity.
Qed.

(* ------------------------------------------------------------------ *)
(** ** Executive-summary insights                                      *)
(* ------------------------------------------------------------------ *)

(** Whenever [_generate_insights] returns, its list starts with the one
    revenue sentence the growth figure selects and holds no other. *)
Lemma generate_insights_revenue
  (current previous : gmap string Q)
  (top_products : list Analytics.TopProductRow.t)
  (market_share : list Analytics.MarketShareRow.t)
  (insights : list Reports.insight) :
  Reports._generate_insights current previous top_products market_share
  = Ok insights ->
  let g := Reports.revenue_growth current previous in
  exists rest,
    insights
    = (if Qltb 10 g then Reports.RevenueExcellent g
       else if Qltb 0 g then Reports.RevenuePositive g
       else Reports.RevenueDeclining g) :: rest
    /\ List.filter Reports.is_revenue_insight rest = [].
Proof.
  intros H g. unfold Reports._generate_insights in H. fold g in H.
  cbv zeta in H.
  destruct (Qltb 10 g); [| destruct (Qltb 0 g)];
    (destruct top_products as [| p ps];
     [| destruct (Qeq_bool (Analytics.dict_get current "total_revenue" 1) 0);
        [discriminate H |]];
     repeat match type of H with
            | context [if ?c then _ else _] => destruct c
            end;
     simpl in H; inversion H; eexists; split; reflexivity).
Qed.

(** C8 on the code.  One active sale discounted to a total of 0 makes the
    current summary's [total_revenue] 0 while [top_products] is not
    empty, and the concentration division raises: the executive summary
    gets no insight at all, the revenue one included. *)
Theorem C8_zero_revenue_raises :
  Reports.executive_summary_insights [Sample.sale_free]
    Sample.jan_1 Sample.feb_28 = Err ZeroDivisionError
  /\ Analytics.get_performance_summary [Sample.sale_free]
       Sample.jan_1 Sample.feb_28 !! "total_revenue"%string = Some 0%Q
  /\ (exists row,
        Analytics.get_top_products [Sample.sale_free]
          Sample.jan_1 Sample.feb_28 "revenue" 10 = Ok [row]).
Proof.
  split; [vm_compute; reflexivity |].
  split; [vm_compute; reflexivity |].
  eexists. vm_compute. reflexivity.
Qed.

(* ================================================================== *)
(** * Further properties of the aggregation engine                     *)
(* ================================================================== *)

Lemma filter_none {A} (p : A -> bool) (l : list A) :
  Forall (fun x => p x = false) l -> List.filter p l = [].
Proof.
  induction 1 as [| x l Hx _ IH]; simpl; [reflexivity |].
  rewrite Hx. exact IH.
Qed.

(** [get_performance_summary] over a range that selects no sale: every
    figure is 0, the average included (it is not a division by zero). *)
Theorem performance_summary_of_nothing
  (db : ledger) (start_date end_date : date) :
  Forall (fun s => Analytics.in_range start_date end_date s = false) db ->
  let summary := Analytics.get_performance_summary db start_date end_date in
  summary !! "total_revenue"%string = Some 0%Q
  /\ summary !! "total_quantity"%string = Some 0%Q
  /\ summary !! "total_transactions"%string = Some 0%Q
  /\ summary !! "avg_order_value"%string = Some 0%Q
  /\ summary !! "unique_products"%string = Some 0%Q
  /\ summary !! "unique_pharmacies"%string = Some 0%Q
  /\ size summary = 6%nat.
Proof.
  intros H summary. subst summary.
  unfold Analytics.get_performance_summary.
  rewrite (filter_none _ _ H).
  vm_compute. repeat split; reflexivity.
Qed.

Lemma performance_summary_of_nothing_witness :
  Analytics.get_performance_summary Sample.db
    (mkDate 2023 1 1) (mkDate 2023 12 31) !! "avg_order_value"%string
  = Some 0%Q.
Proof.
  apply (performance_summary_of_nothing Sample.db
           (mkDate 2023 1 1) (mkDate 2023 12 31)).
  repeat constructor.
Defined.

(** The upper end of a range is [end_date] at midnight: a sale made on
    [end_date] at any later time of day is not selected, whatever the
    start of the range, and a sale made exactly at midnight of an end date
    that is not before the start is. *)
Theorem range_ends_at_midnight
  (start_date end_date : date) (s : Sale.t) :
  dt_date (Sale.sale_date s) = end_date ->
  ((0 < dt_secs (Sale.sale_date s))%Z ->
   Analytics.in_range start_date end_date s = false)
  /\ (dt_secs (Sale.sale_date s) = 0%Z ->
      date_leb start_date end_date = true ->
      Analytics.in_range start_date end_date s = Sale.is_active s).
Proof.
  intros Hdate. unfold Analytics.in_range, dt_leb, timestamp, midnight.
  destruct (Sale.sale_date s) as [d secs]. simpl in *. subst d. split.
  - intros Hsecs.
    assert (E : (days_from_civil end_date * 86400 + secs
                 <=? days_from_civil end_date * 86400 + 0)%Z = false)
      by (apply Z.leb_gt; lia).
    rewrite E. rewrite andb_false_r. reflexivity.
  - intros -> Hle. unfold date_leb in Hle. apply Z.leb_le in Hle.
    assert (E1 : (days_from_civil start_date * 86400 + 0
                  <=? days_from_civil end_date * 86400 + 0)%Z = true)
      by (apply Z.leb_le; lia).
    rewrite E1, Z.leb_refl. simpl.
    destruct (Sale.is_active s); reflexivity.
Qed.

Lemma range_ends_at_midnight_witness :
  Analytics.in_range Sample.jan_1 (mkDate 2024 2 10) Sample.sale_c = false
  /\ Sale.is_active Sample.sale_c = true.
Proof.
  split; [| reflexivity].
  apply (range_ends_at_midnight Sample.jan_1 (mkDate 2024 2 10) Sample.sale_c);
    reflexivity.
Defined.

(* ------------------------------------------------------------------ *)
(** ** Groups partition the selected rows                              *)
(* ------------------------------------------------------------------ *)

Lemma filter_split_perm {A} (p q : A -> bool) (l : list A) :
  (forall x, p x = true -> q x = true -> False) ->
  Permutation (List.filter (fun x => p x || q x) l)
              (List.filter p l ++ List.filter q l).
Proof.
  intros Hdisj. induction l as [| x l IH]; simpl; [reflexivity |].
  destruct (p x) eqn:Hp, (q x) eqn:Hq; simpl.
  - exfalso. exact (Hdisj x Hp Hq).
  - constructor. exact IH.
  - rewrite IH. apply Permutation_middle.
  - exact IH.
Qed.

Section Partition.

Context {A K : Type} `{EqDecision K} (key : A -> K).

Let among (ks : list K) (r : A) : bool :=
  existsb (fun k => bool_decide (key r = k)) ks.

Lemma groups_of_keys_perm (ks : list K) (rows : list A) :
  List.NoDup ks ->
  Permutation
    (concat (List.map
               (fun k => List.filter (fun r => bool_decide (key r = k)) rows)
               ks))
    (List.filter (among ks) rows).
Proof using Type.
  induction 1 as [| k ks Hk Hnd IH]; simpl.
  - induction rows as [| r rows IHr]; simpl; [reflexivity | exact IHr].
  - rewrite IH. symmetry.
    apply (filter_split_perm
             (fun r => bool_decide (key r = k)) (among ks) rows).
    intros r Hr Hin. apply bool_decide_eq_true in Hr.
    unfold among in Hin. apply existsb_exists in Hin.
    destruct Hin as [k' [Hk' Heq]]. apply bool_decide_eq_true in Heq.
    apply Hk. congruence.
Qed.

(** Put end to end, the groups of [GROUP BY] are the selected rows, each
    exactly once. *)
Lemma group_by_partition (rows : list A) :
  Permutation (concat (List.map snd (Sql.group_by key rows))) rows.
Proof using Type.
  unfold Sql.group_by. rewrite List.map_map. simpl.
  rewrite groups_of_keys_perm by apply List.NoDup_nodup.
  assert (Hall : forall l,
             (forall r, In r l -> among (List.nodup (decide_rel eq)
                                           (List.map key rows)) r = true) ->
             List.filter (among (List.nodup (decide_rel eq)
                                   (List.map key rows))) l = l).
  { induction l as [| r l IHl]; intros Hl; simpl; [reflexivity |].
    rewrite (Hl r (or_introl eq_refl)). f_equal.
    apply IHl. intros r' Hr'. apply Hl. right. exact Hr'. }
  rewrite Hall; [reflexivity |].
  intros r Hr. unfold among. apply existsb_exists.
  exists (key r). split.
  - apply List.nodup_In. apply in_map. exact Hr.
  - apply bool_decide_eq_true. reflexivity.
Qed.

End Partition.

Lemma Py_sum_perm (xs ys : list Q) :
  Permutation xs ys -> (Py.sum xs == Py.sum ys)%Q.
Proof.
  induction 1 as [| x xs ys _ IH | x y xs | xs ys zs _ IH1 _ IH2].
  - reflexivity.
  - rewrite !Py_sum_cons, IH. reflexivity.
  - rewrite !Py_sum_cons. lra.
  - rewrite IH1. exact IH2.
Qed.

Lemma Py_sum_app (xs ys : list Q) :
  (Py.sum (xs ++ ys) == Py.sum xs + Py.sum ys)%Q.
Proof.
  induction xs as [| x xs IH]; simpl.
  - unfold Py.sum at 2. simpl. lra.
  - rewrite !Py_sum_cons, IH. lra.
Qed.

Lemma Py_sum_concat {A} (f : A -> Q) (ls : list (list A)) :
  (Py.sum (List.map (fun l => Py.sum (List.map f l)) ls)
   == Py.sum (List.map f (concat ls)))%Q.
Proof.
  induction ls as [| l ls IH]; simpl; [reflexivity |].
  rewrite Py_sum_cons, List.map_app, Py_sum_app, IH. reflexivity.
Qed.

Lemma fold_left_Zadd_acc (xs : list Z) (a : Z) :
  (fold_left Z.add xs a = a + fold_left Z.add xs 0)%Z.
Proof.
  revert a. induction xs as [| x xs IH]; intros a; simpl; [lia |].
  rewrite (IH (a + x)%Z), (IH (0 + x)%Z). lia.
Qed.

Lemma sum_int_cons (x : Z) (xs : list Z) :
  sum_int (x :: xs) = (x + sum_int xs)%Z.
Proof. unfold sum_int. simpl. apply fold_left_Zadd_acc. Qed.

Lemma sum_int_perm (xs ys : list Z) :
  Permutation xs ys -> sum_int xs = sum_int ys.
Proof.
  induction 1 as [| x xs ys _ IH | x y xs | xs ys zs _ IH1 _ IH2].
  - reflexivity.
  - rewrite !sum_int_cons, IH. reflexivity.
  - rewrite !sum_int_cons. lia.
  - congruence.
Qed.

Lemma sum_int_concat {A} (f : A -> Z) (ls : list (list A)) :
  sum_int (List.map (fun l => sum_int (List.map f l)) ls)
  = sum_int (List.map f (concat ls)).
Proof.
  induction ls as [| l ls IH]; simpl; [reflexivity |].
  rewrite sum_int_cons, IH, List.map_app.
  induction l as [| x l IHl]; simpl; [reflexivity |].
  rewrite !sum_int_cons. lia.
Qed.

Lemma sum_int_ones {A} (l : list A) :
  sum_int (List.map (fun _ => 1%Z) l) = Sql.count l.
Proof.
  unfold Sql.count. induction l as [| x l IH]; [reflexivity |].
  simpl List.map. rewrite sum_int_cons, IH. simpl length. lia.
Qed.

(** What [x or 0] makes of the SQL aggregates. *)
Lemma or0_sum (xs : list Q) : or0 (Sql.sum xs) = Py.sum xs.
Proof. destruct xs; reflexivity. Qed.

Lemma or0Z_sumZ (xs : list Z) : Analytics.or0Z (Sql.sumZ xs) = sum_int xs.
Proof. destruct xs; reflexivity. Qed.

(** The buckets of [get_sales_performance] add up to the figures of
    [get_performance_summary] for the same range, whatever the period:
    no selected sale is lost or counted twice by the grouping. *)
Theorem sales_performance_adds_up
  (db : ledger) (start_date end_date : date) (period : string) :
  let rows := Analytics.get_sales_performance db start_date end_date period in
  let summary := Analytics.get_performance_summary db start_date end_date in
  (Py.sum (List.map Analytics.PerformanceRow.revenue rows)
   == Analytics.dict_get summary "total_revenue" 0)%Q
  /\ summary !! "total_quantity"%string
     = Some (inject_Z
               (sum_int (List.map Analytics.PerformanceRow.quantity rows)))
  /\ summary !! "total_transactions"%string
     = Some (inject_Z
               (sum_int (List.map Analytics.PerformanceRow.transactions rows))).
Proof.
  intros rows summary. subst rows summary.
  unfold Analytics.get_sales_performance, Analytics.performance_query,
    Analytics.get_performance_summary, Analytics.dict_get.
  set (selected := List.filter (Analytics.in_range start_date end_date) db).
  set (date_group := fun s : Sale.t =>
         trunc (Analytics.performance_date_group period) (Sale.sale_date s)).
  set (leb := fun a b : date * list Sale.t => date_leb (fst a) (fst b)).
  set (groups := Sql.group_by date_group selected).
  assert (Hperm : Permutation (Sql.order_by leb groups) groups)
    by apply order_by_perm.
  assert (Hpart : Permutation (concat (List.map snd groups)) selected)
    by apply group_by_partition.
  rewrite !List.map_map. simpl.
  split; [| split].
  - rewrite lookup_insert_eq. simpl.
    unfold Analytics.revenue_of. rewrite or0_sum.
    rewrite (Py_sum_perm _ _
               (Permutation_map
                  (fun x => or0 (Sql.sum (List.map Sale.total_price (snd x))))
                  Hperm)).
    rewrite <- (List.map_map snd
                  (fun l => or0 (Sql.sum (List.map Sale.total_price l)))).
    rewrite (List.map_ext _ (fun l => Py.sum (List.map Sale.total_price l)))
      by (intros l; apply or0_sum).
    rewrite Py_sum_concat.
    apply Py_sum_perm, Permutation_map, Hpart.
  - rewrite lookup_insert_ne by discriminate.
    rewrite lookup_insert_eq. do 2 f_equal.
    unfold Analytics.quantity_of. rewrite or0Z_sumZ.
    rewrite (sum_int_perm _ _
               (Permutation_map
                  (fun x => Analytics.or0Z
                              (Sql.sumZ (List.map Sale.quantity (snd x))))
                  Hperm)).
    rewrite <- (List.map_map snd
                  (fun l => Analytics.or0Z (Sql.sumZ (List.map Sale.quantity l)))).
    rewrite (List.map_ext _ (fun l => sum_int (List.map Sale.quantity l)))
      by (intros l; apply or0Z_sumZ).
    rewrite sum_int_concat. symmetry.
    apply sum_int_perm, Permutation_map, Hpart.
  - do 2 (rewrite lookup_insert_ne by discriminate).
    rewrite lookup_insert_eq. do 2 f_equal.
    rewrite (sum_int_perm _ _
               (Permutation_map (fun x => Sql.count (snd x)) Hperm)).
    rewrite <- (List.map_map snd (fun l => Sql.count l)).
    rewrite (List.map_ext _ (fun l => sum_int (List.map (fun _ => 1%Z) l)))
      by (intros l; symmetry; apply sum_int_ones).
    rewrite sum_int_concat, sum_int_ones.
    unfold Sql.count. f_equal. symmetry.
    apply Permutation_length, Hpart.
Qed.

(* ------------------------------------------------------------------ *)
(** ** Day arithmetic                                                  *)
(* ------------------------------------------------------------------ *)

(** The date of a day number has that day number: [timedelta] arithmetic
    on dates is exact. *)
Lemma days_civil_roundtrip (z : Z) :
  days_from_civil (civil_from_days z) = z.
Proof.
  unfold days_from_civil, civil_from_days. cbv zeta.
  simpl year; simpl month; simpl day.
  repeat match goal with
         | |- context [if ?c then _ else _] => destruct c eqn:?
         end;
    repeat match goal with
           | H : (_ <? _)%Z = true |- _ => apply Z.ltb_lt in H
           | H : (_ <? _)%Z = false |- _ => apply Z.ltb_ge in H
           | H : (_ <=? _)%Z = true |- _ => apply Z.leb_le in H
           | H : (_ <=? _)%Z = false |- _ => apply Z.leb_gt in H
           | H : (_ >? _)%Z = true |- _ => apply Z.gtb_lt in H
           | H : (_ >? _)%Z = false |- _ =>
               rewrite Z.gtb_ltb in H; apply Z.ltb_ge in H
           end;
    Z.to_euclidean_division_equations; lia.
Qed.

Lemma days_add_days (d : date) (n : Z) :
  days_from_civil (add_days d n) = (days_from_civil d + n)%Z.
Proof. unfold add_days. apply days_civil_roundtrip. Qed.

(** The midpoint of a range that is not inverted lies inside it. *)
Lemma mid_point_between (start_date end_date : date) :
  date_leb start_date end_date = true ->
  (days_from_civil start_date
   <= days_from_civil (Analytics.mid_point start_date end_date)
   <= days_from_civil end_date)%Z.
Proof.
  unfold date_leb, Analytics.mid_point, days_between. intros H.
  apply Z.leb_le in H. rewrite days_add_days.
  Z.to_euclidean_division_equations. lia.
Qed.

(** [calculate_growth_rate] splits the range without loss or overlap: on
    a range that is not inverted the two halves' revenues add up to the
    [total_revenue] of [get_performance_summary] for the whole range. *)
Theorem growth_halves_add_up (db : ledger) (start_date end_date : date) :
  date_leb start_date end_date = true ->
  let growth := Analytics.calculate_growth_rate db start_date end_date in
  (Analytics.GrowthRate.first_half_revenue growth
   + Analytics.GrowthRate.second_half_revenue growth
   == Analytics.dict_get
        (Analytics.get_performance_summary db start_date end_date)
        "total_revenue" 0)%Q.
Proof.
  intros Hle growth. subst growth.
  pose proof (mid_point_between start_date end_date Hle) as Hmid.
  unfold Analytics.calculate_growth_rate, Analytics.get_performance_summary,
    Analytics.dict_get. simpl.
  rewrite lookup_insert_eq. simpl.
  unfold Analytics.first_half, Analytics.second_half, Analytics.revenue_of.
  rewrite !or0_sum.
  set (p1 := fun s : Sale.t =>
         dt_leb (midnight start_date) (Sale.sale_date s)
         && dt_ltb (Sale.sale_date s)
              (midnight (Analytics.mid_point start_date end_date))
         && Bool.eqb (Sale.is_active s) true).
  set (p2 := fun s : Sale.t =>
         dt_leb (midnight (Analytics.mid_point start_date end_date))
           (Sale.sale_date s)
         && dt_leb (Sale.sale_date s) (midnight end_date)
         && Bool.eqb (Sale.is_active s) true).
  assert (Hcmp : forall s,
             (p1 s = true -> p2 s = true -> False)
             /\ Analytics.in_range start_date end_date s = p1 s || p2 s).
  { intros s. unfold p1, p2, Analytics.in_range, dt_leb, dt_ltb, timestamp,
      midnight. simpl.
    set (t := (days_from_civil (dt_date (Sale.sale_date s)) * 86400
               + dt_secs (Sale.sale_date s))%Z).
    set (a := days_from_civil start_date) in *.
    set (m := days_from_civil (Analytics.mid_point start_date end_date)) in *.
    set (e := days_from_civil end_date) in *.
    destruct (Z.leb_spec (a * 86400 + 0) t), (Z.ltb_spec t (m * 86400 + 0)),
      (Z.leb_spec (m * 86400 + 0) t), (Z.leb_spec t (e * 86400 + 0)),
      (Bool.eqb (Sale.is_active s) true);
      simpl; split; try reflexivity; try discriminate; try lia;
      intros; lia. }
  rewrite (List.filter_ext (Analytics.in_range start_date end_date)
             (fun s => p1 s || p2 s)) by (intros s; apply Hcmp).
  rewrite (Py_sum_perm _ _
             (Permutation_map Sale.total_price
                (filter_split_perm p1 p2 db (fun s => proj1 (Hcmp s))))).
  rewrite List.map_app, Py_sum_app. reflexivity.
Qed.

Lemma growth_halves_witness :
  let growth :=
    Analytics.calculate_growth_rate Sample.db Sample.jan_1 Sample.feb_28 in
  (Analytics.GrowthRate.first_half_revenue growth
   + Analytics.GrowthRate.second_half_revenue growth
   == Analytics.dict_get
        (Analytics.get_performance_summary Sample.db
           Sample.jan_1 Sample.feb_28)
        "total_revenue" 0)%Q.
Proof.
  apply (growth_halves_add_up Sample.db Sample.jan_1 Sample.feb_28).
  reflexivity.
Defined.

(* ------------------------------------------------------------------ *)
(** ** Comparing periods                                               *)
(* ------------------------------------------------------------------ *)

Lemma change_times_baseline (current previous : Q) :
  ~ (previous == 0)%Q ->
  ((current - previous) / previous * 100 * previous
   == (current - previous) * 100)%Q.
Proof. intros H. field. exact H. Qed.

(** The sign of the relative change, read against the sign of the
    baseline. *)
Lemma change_sign (current previous : Q) :
  ~ (previous == 0)%Q ->
  let x := ((current - previous) / previous * 100)%Q in
  ((0 < previous)%Q ->
   ((0 < x)%Q <-> (previous < current)%Q)
   /\ ((x < 0)%Q <-> (current < previous)%Q))
  /\ ((previous < 0)%Q ->
      ((0 < x)%Q <-> (current < previous)%Q)
      /\ ((x < 0)%Q <-> (previous < current)%Q)).
Proof.
  intros Hnz x.
  pose proof (change_times_baseline current previous Hnz) as Hprod.
  fold x in Hprod. clearbody x.
  split; intros Hp; split; split; intros H; nra.
Qed.
